(** * License-plate pipeline: a shallow embedding of [process_image]

    The pipeline of [src/model_trainer.py] glues calls into an imaging
    library (OpenCV) and an OCR engine (EasyOCR).  The two libraries are
    interfaces here ([Cv2] and [Reader]); everything the script itself
    does -- ranking, truncation, the greedy search, the mask, the index
    extraction, the crop, the two guarded exits, the drawing on the
    caller's buffer -- is written out. *)

From Stdlib Require Import ZArith QArith List String Lia Bool Sorted.
From stdpp Require Import base option list gmap.

Local Open Scope Z_scope.

(** ** Data *)

(** An OpenCV point is [(x, y)]: column first, row second. *)
Definition Point : Type := Z * Z.
Definition Contour : Type := list Point.

(** A colour pixel in B, G, R order; an 8-bit grey level. *)
Definition Pixel : Type := Z * Z * Z.
Definition ColorImage : Type := list (list Pixel).
Definition GrayImage : Type := list (list Z).

(** [arr.shape] of a two-dimensional array, rows first. *)
Definition shape {A} (a : list (list A)) : nat * nat :=
  (length a, length (hd [] a)).

(** A numpy array is rectangular: every row is as long as the first. *)
Definition rectangular {A} (a : list (list A)) : bool :=
  forallb (fun row => Nat.eqb (length row) (snd (shape a))) a.

(** Values found inside an OCR result tuple. *)
Inductive PyVal :=
| VStr (s : string)
| VFloat (q : Q)
| VBox (pts : list Point).

Definition OcrEntry : Type := list PyVal.

Inductive RetrievalMode := RETR_TREE.
Inductive ApproxMethod := CHAIN_APPROX_SIMPLE.
Inductive ColorCode := COLOR_BGR2GRAY.
Inductive Font := FONT_HERSHEY_SIMPLEX.
Inductive LineType := LINE_AA.

(** [cv2.findContours] returns two or three values depending on the
    OpenCV version. *)
Inductive ContoursInfo :=
| Info2 (contours : list Contour) (hierarchy : list (list Z))
| Info3 (image : GrayImage) (contours : list Contour)
        (hierarchy : list (list Z)).

(** Lines 40-43: [contours_info[0]] when two values came back,
    [contours_info[1]] otherwise. *)
Definition unpack_contours (contours_info : ContoursInfo) : list Contour :=
  match contours_info with
  | Info2 c _ => c
  | Info3 _ c _ => c
  end.

(** ** The two collaborators *)

Class Cv2 := {
  cvtColor : ColorImage -> ColorCode -> GrayImage;
  bilateralFilter : GrayImage -> Z -> Z -> Z -> GrayImage;
  Canny : GrayImage -> Z -> Z -> GrayImage;
  findContours : GrayImage -> RetrievalMode -> ApproxMethod -> ContoursInfo;
  contourArea : Contour -> Q;
  approxPolyDP : Contour -> Z -> bool -> Contour;
  (** which pixels [(row, col)] of an array of the given shape
      [cv2.drawContours] writes to *)
  drawContours_paints :
    nat * nat -> list Contour -> Z -> Z -> nat -> nat -> bool;
  bitwise_and : ColorImage -> ColorImage -> GrayImage -> ColorImage;
  putText :
    ColorImage -> string -> Point -> Font -> Z -> Pixel -> Z -> LineType ->
    ColorImage;
  rectangle : ColorImage -> Point -> Point -> Pixel -> Z -> ColorImage
}.

Class Reader := {
  readtext : GrayImage -> list OcrEntry
}.

(** ** Python and numpy building blocks *)

Inductive PyExc := ValueError | IndexError | Cv2Error | DanglingRef.

Inductive Res (A : Type) :=
| Ret (a : A)
| Raise (e : PyExc).
Arguments Ret {A} a.
Arguments Raise {A} e.

(** [seq[i]] with Python's negative indices. *)
Definition py_getitem {A} (l : list A) (i : Z) : Res A :=
  let n := Z.of_nat (length l) in
  let j := if i <? 0 then n + i else i in
  if (0 <=? j) && (j <? n)
  then match l !! Z.to_nat j with
       | Some a => Ret a
       | None => Raise IndexError
       end
  else Raise IndexError.

(** [seq[a:b]] for non-negative [a] and [b]. *)
Definition py_slice {A} (a b : nat) (l : list A) : list A :=
  drop a (take b l).

(** [sorted(l, key=key, reverse=True)]: descending by key, and stable --
    elements with equal keys keep the order they had in [l]. *)
Section Sorted.
Context {A : Type} (key : A -> Q).

Fixpoint insert_desc (x : A) (l : list A) : list A :=
  match l with
  | [] => [x]
  | y :: l' =>
      if Qle_bool (key y) (key x) then x :: l
      else y :: insert_desc x l'
  end.

Definition sorted_desc (l : list A) : list A :=
  foldr insert_desc [] l.
End Sorted.

(** [np.zeros(shape, np.uint8)] *)
Definition np_zeros (sh : nat * nat) : GrayImage :=
  replicate (fst sh) (replicate (snd sh) 0).

(** The positions [(row, col)] holding [v], in row-major order. *)
Definition row_hits (v : Z) (r : nat) (row : list Z) : list (nat * nat) :=
  omap (fun p : nat * Z => if Z.eqb (snd p) v then Some (r, fst p) else None)
       (imap pair row).

Definition hits (m : GrayImage) (v : Z) : list (nat * nat) :=
  concat (imap (row_hits v) m).

(** [np.where(m == v)]: the row indices and the column indices. *)
Definition np_where_eq (m : GrayImage) (v : Z) : list nat * list nat :=
  (fst <$> hits m v, snd <$> hits m v).

(** [np.min] and [np.max] raise [ValueError] on an empty array. *)
Definition np_min (l : list nat) : Res nat :=
  match l with
  | [] => Raise ValueError
  | a :: l' => Ret (foldr Nat.min a l')
  end.

Definition np_max (l : list nat) : Res nat :=
  match l with
  | [] => Raise ValueError
  | a :: l' => Ret (foldr Nat.max a l')
  end.

(** ** The world: image buffers and the OCR call log *)

Definition loc : Type := positive.

Inductive Event :=
| EvLoadReader
| EvReadText (crop : GrayImage).

Record World := mkWorld {
  heap : gmap loc ColorImage;
  trace : list Event
}.

Definition M (A : Type) : Type := World -> Res A * World.

Definition ret {A} (a : A) : M A := fun w => (Ret a, w).

Definition bind {A B} (m : M A) (k : A -> M B) : M B :=
  fun w =>
    match m w with
    | (Ret a, w') => k a w'
    | (Raise e, w') => (Raise e, w')
    end.

Definition lift {A} (r : Res A) : M A := fun w => (r, w).

Notation "x <- m ;; k" := (bind m (fun x => k))
  (at level 100, m at next level, right associativity).
Notation "m ;;; k" := (bind m (fun _ => k))
  (at level 100, right associativity).

Definition deref (l : loc) : M ColorImage :=
  fun w =>
    match heap w !! l with
    | Some img => (Ret img, w)
    | None => (Raise DanglingRef, w)
    end.

Definition store (l : loc) (img : ColorImage) : M unit :=
  fun w => (Ret tt, mkWorld (<[l := img]> (heap w)) (trace w)).

Definition emit (e : Event) : M unit :=
  fun w => (Ret tt, mkWorld (heap w) (trace w ++ [e])).

(** ** The pipeline *)

Section Pipeline.
Context `{cv2 : Cv2} `{reader : Reader}.

(** [load_reader()]: the cached OCR model. *)
Definition load_reader : M unit := emit EvLoadReader.

(** [reader.readtext(crop)] *)
Definition reader_readtext (crop : GrayImage) : M (list OcrEntry) :=
  emit (EvReadText crop) ;;; ret (readtext crop).

(** Lines 37-44: the contours of the edge map, largest area first, at
    most ten of them.  ([findContours] is given [edged.copy()]; a copy
    has the content of [edged].) *)
Definition get_contours (edged : GrayImage) : list Contour :=
  let contours_info := findContours edged RETR_TREE CHAIN_APPROX_SIMPLE in
  let contours := unpack_contours contours_info in
  take 10 (sorted_desc contourArea contours).

(** Lines 46-51: the first candidate whose approximation has four
    vertices. *)
Fixpoint find_location (contours : list Contour) : option Contour :=
  match contours with
  | [] => None
  | contour :: rest =>
      let approx := approxPolyDP contour 10 true in
      if Nat.eqb (length approx) 4 then Some approx
      else find_location rest
  end.

(** [cv2.drawContours(mask, cs, idx, color, thickness)] writes [color]
    into the pixels it paints and leaves the others as they are. *)
Definition drawContours (mask : GrayImage) (cs : list Contour) (idx : Z)
    (color : Z) (thickness : Z) : GrayImage :=
  imap (fun r row =>
          imap (fun c v =>
                  if drawContours_paints (shape mask) cs idx thickness r c
                  then color else v) row) mask.

(** Lines 58-59. *)
Definition make_mask (gray : GrayImage) (location : Contour) : GrayImage :=
  let mask := np_zeros (shape gray) in
  drawContours mask [location] 0 255 (-1).

(** Lines 62-65. *)
Definition crop_plate (gray mask : GrayImage) : Res GrayImage :=
  let '(x, y) := np_where_eq mask 255 in
  match np_min x with
  | Raise e => Raise e
  | Ret x1 =>
  match np_min y with
  | Raise e => Raise e
  | Ret y1 =>
  match np_max x with
  | Raise e => Raise e
  | Ret x2 =>
  match np_max y with
  | Raise e => Raise e
  | Ret y2 =>
      Ret (py_slice y1 (y2 + 1) <$> py_slice x1 (x2 + 1) gray)
  end end end end.

(** Line 78: [org=(approx[0][0][0], approx[1][0][1] + 60)]. *)
Definition text_org (approx : Contour) : Res Point :=
  match py_getitem approx 0 with
  | Raise e => Raise e
  | Ret p0 =>
      match py_getitem approx 1 with
      | Raise e => Raise e
      | Ret p1 => Ret (fst p0, snd p1 + 60)
      end
  end.

(** [cv2.putText] wants a [str] for [text]. *)
Definition as_str (text : PyVal) : Res string :=
  match text with
  | VStr s => Ret s
  | _ => Raise Cv2Error
  end.

(** Lines 77-81: the text, then the rectangle, on the caller's buffer. *)
Definition annotate (img_array : loc) (text : PyVal) (approx : Contour)
    : M unit :=
  font <- ret FONT_HERSHEY_SIMPLEX ;;
  org <- lift (text_org approx) ;;
  s <- lift (as_str text) ;;
  img <- deref img_array ;;
  store img_array (putText img s org font 1 (0, 255, 0) 2 LINE_AA) ;;;
  q0 <- lift (py_getitem approx 0) ;;
  q2 <- lift (py_getitem approx 2) ;;
  img <- deref img_array ;;
  store img_array (rectangle img q0 q2 (0, 255, 0) 3).

Definition Output : Type := option loc * option PyVal * option GrayImage.

(** Lines 57-83: what happens once a quadrilateral is at hand. *)
Definition read_plate (img_array : loc) (img : ColorImage)
    (gray : GrayImage) (location : Contour) : M Output :=
  let mask := make_mask gray location in
  let _ := bitwise_and img img mask in
  cropped_image <- lift (crop_plate gray mask) ;;
  result <- reader_readtext cropped_image ;;
  match result with
  | [] => ret (None, None, None)
  | entry :: _ =>
      text <- lift (py_getitem entry (-2)) ;;
      annotate img_array text location ;;;
      ret (Some img_array, Some text, Some cropped_image)
  end.

Definition process_image (img_array : loc) : M Output :=
  load_reader ;;;
  img <- deref img_array ;;
  let gray := cvtColor img COLOR_BGR2GRAY in
  let bfilter := bilateralFilter gray 11 17 17 in
  let edged := Canny bfilter 30 200 in
  let contours := get_contours edged in
  match find_location contours with
  | None => ret (None, None, None)
  | Some location => read_plate img_array img gray location
  end.

(** ** Names for the intermediate values of a run *)

Definition gray_of (img : ColorImage) : GrayImage :=
  cvtColor img COLOR_BGR2GRAY.

Definition edges_of (img : ColorImage) : GrayImage :=
  Canny (bilateralFilter (gray_of img) 11 17 17) 30 200.

(** Every contour of the edge map, in the order the library gave them. *)
Definition all_contours (img : ColorImage) : list Contour :=
  unpack_contours (findContours (edges_of img) RETR_TREE CHAIN_APPROX_SIMPLE).

Definition ranked (img : ColorImage) : list Contour :=
  sorted_desc contourArea (all_contours img).

Definition located (img : ColorImage) : option Contour :=
  find_location (get_contours (edges_of img)).

(** [a] ranks no lower than [b]: its area is at least as large. *)
Definition area_ge (a b : Contour) : Prop :=
  (contourArea b <= contourArea a)%Q.

Definition is_quad (c : Contour) : Prop :=
  length (approxPolyDP c 10 true) = 4%nat.

(** The world after [load_reader()], and after the OCR call. *)
Definition loaded (w : World) : World :=
  mkWorld (heap w) (trace w ++ [EvLoadReader]).

Definition ocr_called (w : World) (crop : GrayImage) : World :=
  mkWorld (heap w) (trace w ++ [EvReadText crop]).

(** The not-found result: [return None, None, None]. *)
Definition not_found : Output := (None, None, None).

(** The buffer after line 78 and line 81 have drawn on [img]. *)
Definition annotated (img : ColorImage) (s : string) (p0 p1 p2 : Point)
    : ColorImage :=
  rectangle
    (putText img s (fst p0, snd p1 + 60) FONT_HERSHEY_SIMPLEX 1
       (0, 255, 0) 2 LINE_AA)
    p0 p2 (0, 255, 0) 3.

(** Lines 77-81 as a function of the buffer's content: how the call
    ends and what the buffer holds afterwards. *)
Definition drawn (img : ColorImage) (text : PyVal) (approx : Contour)
    : Res unit * ColorImage :=
  match text_org approx with
  | Raise e => (Raise e, img)
  | Ret org =>
  match as_str text with
  | Raise e => (Raise e, img)
  | Ret s =>
      let img1 :=
        putText img s org FONT_HERSHEY_SIMPLEX 1 (0, 255, 0) 2 LINE_AA in
      match py_getitem approx 0 with
      | Raise e => (Raise e, img1)
      | Ret q0 =>
      match py_getitem approx 2 with
      | Raise e => (Raise e, img1)
      | Ret q2 => (Ret tt, rectangle img1 q0 q2 (0, 255, 0) 3)
      end end
  end end.

(** ** What a sane fill does with a polygon

    Two facts about [cv2.drawContours] with a negative thickness,
    checked on one array shape and one polygon: it paints every
    vertex (each of which lies inside the array), and it paints
    nothing to the left of, right of, above or below all vertices. *)

Definition vertex_painted (sh : nat * nat) (poly : Contour) (v : Point)
    : bool :=
  (0 <=? fst v) && (0 <=? snd v) &&
  (Z.to_nat (snd v) <? fst sh)%nat && (Z.to_nat (fst v) <? snd sh)%nat &&
  drawContours_paints sh [poly] 0 (-1) (Z.to_nat (snd v)) (Z.to_nat (fst v)).

Definition vertices_painted (sh : nat * nat) (poly : Contour) : bool :=
  forallb (vertex_painted sh poly) poly.

Definition inside_hull_box (poly : Contour) (r c : nat) : bool :=
  existsb (fun v => snd v <=? Z.of_nat r) poly &&
  existsb (fun v => Z.of_nat r <=? snd v) poly &&
  existsb (fun v => fst v <=? Z.of_nat c) poly &&
  existsb (fun v => Z.of_nat c <=? fst v) poly.

Definition fill_in_hull (sh : nat * nat) (poly : Contour) : bool :=
  forallb (fun r =>
    forallb (fun c =>
      implb (drawContours_paints sh [poly] 0 (-1) r c)
            (inside_hull_box poly r c))
      (seq 0 (snd sh)))
    (seq 0 (fst sh)).
End Pipeline.

(** The rectangle of rows [r1..r2] and columns [c1..c2] is the smallest
    axis-aligned one that holds every vertex of [poly]. *)
Definition hull_box (poly : Contour) (r1 r2 c1 c2 : nat) : Prop :=
  (forall v : Point, v ∈ poly ->
     Z.of_nat r1 <= snd v <= Z.of_nat r2 /\
     Z.of_nat c1 <= fst v <= Z.of_nat c2) /\
  (exists v : Point, v ∈ poly /\ snd v = Z.of_nat r1) /\
  (exists v : Point, v ∈ poly /\ snd v = Z.of_nat r2) /\
  (exists v : Point, v ∈ poly /\ fst v = Z.of_nat c1) /\
  (exists v : Point, v ∈ poly /\ fst v = Z.of_nat c2).

(** An event that is a call of [readtext]. *)
Definition is_readtext (e : Event) : bool :=
  match e with
  | EvReadText _ => true
  | EvLoadReader => false
  end.

(** The events a run added to the log. *)
Definition events_of_run (before after : World) : list Event :=
  drop (length (trace before)) (trace after).

(** What a caller sees of a run on the buffer [l]: the result, with the
    returned image reference read through the final heap, the final
    content of the buffer, and the events added. *)
Definition observe (l : loc) (before : World) (r : Res Output * World)
    : Res (option (option ColorImage) * option PyVal * option GrayImage)
      * option ColorImage * list Event :=
  let '(res, after) := r in
  (match res with
   | Ret (i, t, c) => Ret ((fun l' => heap after !! l') <$> i, t, c)
   | Raise e => Raise e
   end,
   heap after !! l,
   events_of_run before after).

(** The reading of the annotation sentence: the text sits in the column
    of the second vertex, 60 pixels away from it vertically. *)
Definition anchored_at_second_vertex (approx : Contour) (org : Point) : Prop :=
  exists p1 : Point,
    approx !! 1%nat = Some p1 /\ fst org = fst p1 /\
    (snd org = snd p1 - 60 \/ snd org = snd p1 + 60).

(** Pixel [(r, c)] of a two-dimensional array. *)
Definition px {A} (a : list (list A)) (r c : nat) : option A :=
  match a !! r with
  | Some row => row !! c
  | None => None
  end.

(** Foreground of a mask: the pixels equal to 255. *)
Definition fg (mask : GrayImage) (r c : nat) : Prop :=
  px mask r c = Some 255.

(** [crop] is [gray] restricted to rows [r1..r2] and columns [c1..c2]. *)
Definition restriction (gray : GrayImage) (r1 r2 c1 c2 : nat)
    (crop : GrayImage) : Prop :=
  length crop = (r2 - r1 + 1)%nat /\
  Forall (fun row => length row = (c2 - c1 + 1)%nat) crop /\
  forall i j : nat,
    (i <= r2 - r1)%nat -> (j <= c2 - c1)%nat ->
    is_Some (px crop i j) /\ px crop i j = px gray (r1 + i) (c1 + j).

(** The rectangle [r1..r2] x [c1..c2] is the smallest one holding every
    foreground pixel of [mask]. *)
Definition tight_box (mask : GrayImage) (r1 r2 c1 c2 : nat) : Prop :=
  (forall r c : nat, fg mask r c ->
     (r1 <= r <= r2)%nat /\ (c1 <= c <= c2)%nat) /\
  (exists c : nat, fg mask r1 c) /\ (exists c : nat, fg mask r2 c) /\
  (exists r : nat, fg mask r c1) /\ (exists r : nat, fg mask r c2).

(** ** A small concrete imaging library and OCR engine

    Stand-ins used to run the pipeline on explicit images. *)

Module Demo.

Definition to_gray (p : Pixel) : Z :=
  let '(b, g, r) := p in (114 * b + 587 * g + 299 * r + 500) / 1000.

Definition threshold (lo : Z) (v : Z) : Z := if lo <=? v then 255 else 0.

Definition zmin_list (d : Z) (l : list Z) : Z := foldr Z.min d l.
Definition zmax_list (d : Z) (l : list Z) : Z := foldr Z.max d l.

(** The axis-aligned box of the edge pixels, clockwise from top-left. *)
Definition box_contour (hs : list (nat * nat)) : Contour :=
  match hs with
  | [] => []
  | (r, c) :: _ =>
      let rs := (fun p => Z.of_nat (fst p)) <$> hs in
      let cs := (fun p => Z.of_nat (snd p)) <$> hs in
      let r1 := zmin_list (Z.of_nat r) rs in
      let r2 := zmax_list (Z.of_nat r) rs in
      let c1 := zmin_list (Z.of_nat c) cs in
      let c2 := zmax_list (Z.of_nat c) cs in
      [(c1, r1); (c2, r1); (c2, r2); (c1, r2)]
  end.

Definition triangle : Contour := [(0, 0); (1, 0); (0, 1)].

Definition demo_contours (edged : GrayImage) : list Contour :=
  match hits edged 255 with
  | [] => []
  | hs => [triangle; box_contour hs]
  end.

Fixpoint shoelace (prev : Point) (c : Contour) : Z :=
  match c with
  | [] => 0
  | p :: c' => fst prev * snd p - snd prev * fst p + shoelace p c'
  end.

Definition demo_area (c : Contour) : Q :=
  match last c with
  | None => 0
  | Some p => Z.abs (shoelace p c) # 2
  end.

Definition in_box (poly : Contour) (r c : nat) : bool :=
  match poly with
  | [] => false
  | (x, y) :: _ =>
      let xs := fst <$> poly in
      let ys := snd <$> poly in
      (zmin_list x xs <=? Z.of_nat c) && (Z.of_nat c <=? zmax_list x xs)
      && (zmin_list y ys <=? Z.of_nat r) && (Z.of_nat r <=? zmax_list y ys)
  end.

Definition demo_paints (sh : nat * nat) (cs : list Contour) (idx : Z)
    (thickness : Z) (r c : nat) : bool :=
  match cs !! Z.to_nat idx with
  | Some poly => in_box poly r c
  | None => false
  end.

(** Marks one pixel, wrapping the position around the image so that
    it shows on small images. *)
Definition mark (img : ColorImage) (p : Point) (color : Pixel) : ColorImage :=
  let '(h, w) := shape img in
  if (h =? 0)%nat || (w =? 0)%nat then img
  else
    let r := Z.to_nat (snd p mod Z.of_nat h) in
    let c := Z.to_nat (fst p mod Z.of_nat w) in
    alter (fun row => <[c := color]> row) r img.

Definition demo_readtext (crop : GrayImage) : list OcrEntry :=
  if existsb (existsb (fun v => 128 <=? v)) crop
  then [[VStr "box"; VStr "ABC123"; VFloat (9 # 10)]]
  else [].

Definition cv2_demo : Cv2 := {|
  cvtColor img _ := (fun row : list Pixel => to_gray <$> row) <$> img;
  bilateralFilter g _ _ _ := g;
  Canny g lo _ := (fun row : list Z => threshold lo <$> row) <$> g;
  findContours edged _ _ := Info2 (demo_contours edged) [];
  contourArea := demo_area;
  approxPolyDP c _ _ := c;
  drawContours_paints := demo_paints;
  bitwise_and a _ _ := a;
  putText img _ org _ _ color _ _ := mark img org color;
  rectangle img p q color _ := mark (mark img p color) q color
|}.

(** The same library with a fill that paints no pixel at all. *)
Definition cv2_nofill : Cv2 := {|
  cvtColor := @cvtColor cv2_demo;
  bilateralFilter := @bilateralFilter cv2_demo;
  Canny := @Canny cv2_demo;
  findContours := @findContours cv2_demo;
  contourArea := @contourArea cv2_demo;
  approxPolyDP := @approxPolyDP cv2_demo;
  drawContours_paints _ _ _ _ _ _ := false;
  bitwise_and := @bitwise_and cv2_demo;
  putText := @putText cv2_demo;
  rectangle := @rectangle cv2_demo
|}.

(** The same library with an approximation so coarse that every
    contour loses all but three of its points. *)
Definition cv2_coarse : Cv2 := {|
  cvtColor := @cvtColor cv2_demo;
  bilateralFilter := @bilateralFilter cv2_demo;
  Canny := @Canny cv2_demo;
  findContours := @findContours cv2_demo;
  contourArea := @contourArea cv2_demo;
  approxPolyDP c _ _ := take 3 c;
  drawContours_paints := @drawContours_paints cv2_demo;
  bitwise_and := @bitwise_and cv2_demo;
  putText := @putText cv2_demo;
  rectangle := @rectangle cv2_demo
|}.

Definition reader_demo : Reader := {| readtext := demo_readtext |}.

Definition dark : Pixel := (10, 10, 10).
Definition dim : Pixel := (100, 100, 100).
Definition bright : Pixel := (200, 200, 200).

(** A bright plate on a dark background. *)
Definition plate_img : ColorImage :=
  [ [dark; dark; dark; dark; dark];
    [dark; bright; bright; bright; dark];
    [dark; bright; bright; bright; dark];
    [dark; dark; dark; dark; dark] ].

(** A plate the OCR stand-in reads nothing from. *)
Definition dim_img : ColorImage :=
  [ [dark; dark; dark; dark; dark];
    [dark; dim; dim; dim; dark];
    [dark; dim; dim; dim; dark];
    [dark; dark; dark; dark; dark] ].

(** A plate that fills the whole picture. *)
Definition full_img : ColorImage :=
  [ [bright; bright; bright]; [bright; dim; bright];
    [bright; bright; bright] ].

Definition plate_quad : Contour := [(1, 1); (3, 1); (3, 2); (1, 2)].

(** No edge anywhere. *)
Definition flat_img : ColorImage :=
  [ [dark; dark; dark]; [dark; dark; dark] ].

Definition plate_crop : GrayImage := [[200; 200; 200]; [200; 200; 200]].
Definition full_quad : Contour := [(0, 0); (2, 0); (2, 2); (0, 2)].

(** Another world holding the plate picture: a different buffer,
    another picture beside it, an older log. *)
Definition busy_world : World :=
  mkWorld {[ 5%positive := plate_img; 2%positive := flat_img ]}
          [EvLoadReader; EvReadText plate_crop].

Definition world_of (img : ColorImage) : World :=
  mkWorld {[ 1%positive := img ]} [].


End Demo.

(** ** The page script (lines 7-9 and 85-115)

    What the Streamlit page does around [process_image]: the upload is
    turned into an array, converted from RGB to BGR into a new array,
    processed, and the outcome is put on the page. *)

(** The two colour-order conversions of [cv2.cvtColor] the page uses;
    each returns a new array. *)
Class Cv2Channels := {
  cvtColor_RGB2BGR : ColorImage -> ColorImage;
  cvtColor_BGR2RGB : ColorImage -> ColorImage
}.

Inductive Shown :=
| ShownColor (img : ColorImage)
| ShownGray (img : GrayImage).

(** The Streamlit calls of the page.  [StSuccess text] is the call
    [st.success(f"**Detected License Plate Number:** `{text}`")]. *)
Inductive UiEvent :=
| StTitle (s : string)
| StWrite (s : string)
| StFileUploader (label : string) (types : list string)
| StImage (img : Shown) (caption : string)
| StSpinner (s : string)
| StSuccess (text : PyVal)
| StError (s : string).

(** How a page run ends: normally, with an exception of the pipeline or
    of OpenCV, or with [st.image] refusing [None]. *)
Inductive PageRes :=
| Done
| Failed (e : PyExc)
| StImageFailed.

(** Python truth value: [if v:]. *)
Definition py_truthy (v : PyVal) : bool :=
  match v with
  | VStr s => negb (String.eqb s "")
  | VFloat q => negb (Qeq_bool q 0)
  | VBox pts => match pts with [] => false | _ :: _ => true end
  end.

Definition truthy_opt (o : option PyVal) : bool :=
  match o with
  | None => false
  | Some v => py_truthy v
  end.

(** A new array: a buffer no reference pointed to before. *)
Definition alloc (img : ColorImage) (w : World) : loc * World :=
  let l := fresh (dom (heap w)) in
  (l, mkWorld (<[l := img]> (heap w)) (trace w)).

Definition is_success (e : UiEvent) : bool :=
  match e with StSuccess _ => true | _ => false end.

Definition is_error (e : UiEvent) : bool :=
  match e with StError _ => true | _ => false end.

Definition not_found_message : string :=
  "Could not find a license plate or read text from the image. Please try a different image.".

Section Page.
Context `{cv2 : Cv2} `{reader : Reader} `{chan : Cv2Channels}.

(** Lines 8, 9 and 86. *)
Definition page_head : list UiEvent :=
  [ StTitle "License Plate Recognition";
    StWrite "Upload an image to detect the license plate number using EasyOCR and OpenCV";
    StFileUploader "Choose an image..." ["jpg"; "png"; "jpeg"]%string ].

(** Lines 103-115: what is put on the page for a result. *)
Definition display (w : World) (out : Output) : PageRes * list UiEvent :=
  let '(processed_image_bgr, detected_text, cropped_plate) := out in
  if truthy_opt detected_text then
    let ui :=
      match detected_text with
      | Some text => [StSuccess text]
      | None => []
      end in
    match processed_image_bgr with
    | None => (Failed Cv2Error, ui)
    | Some l =>
        match heap w !! l with
        | None => (Failed DanglingRef, ui)
        | Some bgr =>
            let processed_image_rgb := cvtColor_BGR2RGB bgr in
            let ui :=
              ui ++ [StImage (ShownColor processed_image_rgb)
                       "Processed Image"] in
            match cropped_plate with
            | None => (StImageFailed, ui)
            | Some crop =>
                (Done,
                 ui ++ [StImage (ShownGray crop)
                          "Cropped Plate (Sent to OCR)"])
            end
        end
    end
  else (Done, [StError not_found_message]).

(** Lines 90-93: [img_cv], then [img_cv_bgr], each a new array. *)
Definition prepare (image_pil : ColorImage) (w : World)
    : loc * loc * World :=
  let '(img_cv, w1) := alloc image_pil w in
  let '(img_cv_bgr, w2) := alloc (cvtColor_RGB2BGR image_pil) w1 in
  (img_cv, img_cv_bgr, w2).

(** Lines 96-100: the upload is shown, then processed under a spinner. *)
Definition upload_shown (image_pil : ColorImage) : list UiEvent :=
  [ StImage (ShownColor image_pil) "Uploaded Image";
    StSpinner "Detecting license plate..." ].

(** The whole script, for one visit of the page. *)
Definition script (uploaded_file : option ColorImage) (w : World)
    : PageRes * World * list UiEvent :=
  match uploaded_file with
  | None => (Done, w, page_head)
  | Some image_pil =>
      let '(img_cv, img_cv_bgr, w2) := prepare image_pil w in
      let ui := page_head ++ upload_shown image_pil in
      match process_image img_cv_bgr w2 with
      | (Raise e, w3) => (Failed e, w3, ui)
      | (Ret out, w3) =>
          let '(r, shown) := display w3 out in
          (r, w3, ui ++ shown)
      end
  end.
End Page.

(** A concrete page on the small library of [Demo]. *)
Module DemoPage.

Definition swap_rb (img : ColorImage) : ColorImage :=
  (fun row : list Pixel =>
     (fun p : Pixel => let '(a, b, c) := p in (c, b, a)) <$> row) <$> img.

Definition chan_demo : Cv2Channels := {|
  cvtColor_RGB2BGR := swap_rb;
  cvtColor_BGR2RGB := swap_rb
|}.

(** An OCR engine that finds a box but reads the empty string in it. *)
Definition reader_blank : Reader := {|
  readtext crop := [[VStr "box"; VStr ""; VFloat (1 # 10)]]
|}.

Definition empty_world : World := mkWorld ∅ [].

(** The two arrays the page makes of the plate picture, in a world
    that already holds other buffers. *)
Definition prepared : loc * loc * World :=
  @prepare chan_demo Demo.plate_img Demo.busy_world.

Definition page_a : loc := fst (fst prepared).
Definition page_b : loc := snd (fst prepared).
Definition page_world : World := snd prepared.

End DemoPage.


(** * Properties *)

(** ** The ranking *)

Section SortedFacts.
Context {A : Type} (key : A -> Q).

Lemma insert_desc_perm (x : A) (l : list A) :
  insert_desc key x l ≡ₚ x :: l.
Proof.
  induction l as [|y l IH]; simpl; [done|].
  destruct (Qle_bool (key y) (key x)); [done|].
  rewrite IH. apply Permutation_swap.
Qed.

Lemma sorted_desc_perm (l : list A) : sorted_desc key l ≡ₚ l.
Proof.
  induction l as [|x l IH]; simpl; [done|].
  rewrite insert_desc_perm. by rewrite IH.
Qed.

Lemma insert_desc_sorted (x : A) (l : list A) :
  StronglySorted (fun a b => (key b <= key a)%Q) l ->
  StronglySorted (fun a b => (key b <= key a)%Q) (insert_desc key x l).
Proof.
  induction 1 as [|y l Hl IH Hy]; simpl.
  - repeat constructor.
  - destruct (Qle_bool (key y) (key x)) eqn:E.
    + apply Qle_bool_iff in E.
      constructor; [by constructor|].
      constructor; [done|].
      eapply Forall_impl; [exact Hy|].
      intros z Hz. simpl in Hz. by eapply Qle_trans.
    + assert (key x <= key y)%Q as Hxy.
      { destruct (Qlt_le_dec (key x) (key y)) as [H|H].
        - by apply Qlt_le_weak.
        - apply Qle_bool_iff in H. congruence. }
      constructor; [done|].
      rewrite insert_desc_perm. by constructor.
Qed.

Lemma sorted_desc_sorted (l : list A) :
  StronglySorted (fun a b => (key b <= key a)%Q) (sorted_desc key l).
Proof.
  induction l as [|x l IH]; simpl; [constructor|].
  by apply insert_desc_sorted.
Qed.

(** Stability: among the elements of any one key, the order of the
    input survives. *)
Lemma insert_desc_stable (q : Q) (x : A) (l : list A) :
  List.filter (fun a => Qeq_bool (key a) q) (insert_desc key x l) =
  List.filter (fun a => Qeq_bool (key a) q) (x :: l).
Proof.
  induction l as [|y l IH]; [done|].
  cbn [insert_desc].
  destruct (Qle_bool (key y) (key x)) eqn:E; [done|].
  cbn [List.filter] in *. rewrite IH.
  destruct (Qeq_bool (key x) q) eqn:Ex; [|done].
  destruct (Qeq_bool (key y) q) eqn:Ey; [|done].
  apply Qeq_bool_iff in Ex, Ey.
  assert (Qle_bool (key y) (key x) = true) as E'; [|congruence].
  apply Qle_bool_iff. rewrite Ex, Ey. apply Qle_refl.
Qed.

Lemma sorted_desc_stable (q : Q) (l : list A) :
  List.filter (fun a => Qeq_bool (key a) q) (sorted_desc key l) =
  List.filter (fun a => Qeq_bool (key a) q) l.
Proof.
  induction l as [|x l IH]; [done|].
  cbn [sorted_desc foldr]. rewrite insert_desc_stable.
  cbn [List.filter]. fold (sorted_desc key l). by rewrite IH.
Qed.
End SortedFacts.

(** ** The greedy search and the shape of a run *)

Section PipelineFacts.
Context `{cv2 : Cv2} `{reader : Reader}.

Lemma find_location_Some (cs : list Contour) (p : Contour) :
  find_location cs = Some p ->
  exists (i : nat) (c : Contour),
    cs !! i = Some c /\ approxPolyDP c 10 true = p /\ length p = 4%nat /\
    forall (j : nat) (c' : Contour),
      (j < i)%nat -> cs !! j = Some c' -> ~ is_quad c'.
Proof.
  induction cs as [|c cs IH]; simpl; [done|].
  destruct (Nat.eqb (length (approxPolyDP c 10 true)) 4) eqn:E.
  - intros [= <-]. apply Nat.eqb_eq in E.
    exists 0%nat, c. repeat split; [done|]. intros j c' Hj. lia.
  - intros Hp. destruct (IH Hp) as (i & c0 & Hi & Hc & Hlen & Hmin).
    exists (S i), c0. repeat split; try done.
    intros [|j] c' Hj Hc'; simpl in Hc'.
    + injection Hc' as <-. unfold is_quad. by apply Nat.eqb_neq in E.
    + apply (Hmin j); [lia|done].
Qed.

Lemma find_location_None (cs : list Contour) :
  find_location cs = None <-> Forall (fun c => ~ is_quad c) cs.
Proof.
  induction cs as [|c cs IH]; simpl.
  - split; [constructor|done].
  - destruct (Nat.eqb (length (approxPolyDP c 10 true)) 4) eqn:E.
    + apply Nat.eqb_eq in E. split; [done|].
      intros Hall. by inversion Hall.
    + apply Nat.eqb_neq in E. rewrite IH. split.
      * by constructor.
      * intros Hall. by inversion Hall.
Qed.

Lemma find_location_quad (cs : list Contour) (p : Contour) :
  find_location cs = Some p -> length p = 4%nat.
Proof.
  intros Hp. by destruct (find_location_Some _ _ Hp) as (_ & _ & _ & _ & ? & _).
Qed.

(** A run on a live buffer: the model is loaded, then either the
    search fails or the rest of the pipeline runs on the polygon. *)
Lemma process_image_unfold (l : loc) (w : World) (img : ColorImage) :
  heap w !! l = Some img ->
  process_image l w =
  match located img with
  | None => (Ret not_found, loaded w)
  | Some p => read_plate l img (gray_of img) p (loaded w)
  end.
Proof.
  intros Hl. unfold process_image, bind, load_reader, emit, deref; simpl.
  rewrite Hl. unfold located, edges_of, gray_of.
  by destruct (find_location _).
Qed.

(** C1: the locator ranks every contour of the edge map by area,
    largest first, keeps the first ten of that ranking, and selects
    the approximation (tolerance 10) of the first of them that has
    exactly four vertices, on which the rest of the pipeline then
    runs; when none of the ten qualifies, [process_image] returns the
    not-found result. *)
Theorem C1_locator_greedy_top10 (l : loc) (w : World) (img : ColorImage) :
  heap w !! l = Some img ->
  ranked img ≡ₚ all_contours img /\
  StronglySorted area_ge (ranked img) /\
  get_contours (edges_of img) = take 10 (ranked img) /\
  match located img with
  | Some p =>
      (exists (i : nat) (c : Contour),
          (i < 10)%nat /\ ranked img !! i = Some c /\
          approxPolyDP c 10 true = p /\ length p = 4%nat /\
          forall (j : nat) (c' : Contour),
            (j < i)%nat -> ranked img !! j = Some c' -> ~ is_quad c') /\
      process_image l w = read_plate l img (gray_of img) p (loaded w)
  | None =>
      (forall (i : nat) (c : Contour),
          (i < 10)%nat -> ranked img !! i = Some c -> ~ is_quad c) /\
      process_image l w = (Ret not_found, loaded w)
  end.
Proof.
  intros Hl.
  split; [apply sorted_desc_perm|].
  split; [apply sorted_desc_sorted|].
  split; [done|].
  pose proof (process_image_unfold l w img Hl) as Hrun.
  unfold located in *.
  change (get_contours (edges_of img)) with (take 10 (ranked img)) in *.
  destruct (find_location (take 10 (ranked img))) as [p|] eqn:Hfind.
  - split; [|done].
    destruct (find_location_Some _ _ Hfind) as (i & c & Hi & Hc & Hlen & Hmin).
    apply lookup_take_Some in Hi as [Hi Hlt].
    exists i, c. repeat split; try done.
    intros j c' Hj Hc'. apply (Hmin j); [done|].
    rewrite lookup_take_lt; [done|lia].
  - split; [|done].
    apply find_location_None in Hfind.
    intros i c Hi Hc. rewrite Forall_forall in Hfind. apply Hfind.
    apply list_elem_of_lookup. exists i.
    by rewrite lookup_take_lt.
Qed.
End PipelineFacts.

(** ** Runs past the locator *)

Section RunFacts.
Context `{cv2 : Cv2} `{reader : Reader}.

Lemma read_plate_unfold (l : loc) (img : ColorImage) (gray : GrayImage)
    (p : Contour) (w : World) :
  read_plate l img gray p w =
  match crop_plate gray (make_mask gray p) with
  | Raise e => (Raise e, w)
  | Ret crop =>
      match readtext crop with
      | [] => (Ret not_found, ocr_called w crop)
      | entry :: _ =>
          match py_getitem entry (-2) with
          | Raise e => (Raise e, ocr_called w crop)
          | Ret text =>
              match annotate l text p (ocr_called w crop) with
              | (Ret _, w') => (Ret (Some l, Some text, Some crop), w')
              | (Raise e, w') => (Raise e, w')
              end
          end
      end
  end.
Proof.
  unfold read_plate, bind, lift, reader_readtext, emit, ret, ocr_called.
  destruct (crop_plate gray (make_mask gray p)) as [crop|e]; [|done].
  simpl. destruct (readtext crop) as [|entry rest]; [done|].
  by destruct (py_getitem entry (-2)).
Qed.

(** Drawing never touches the log. *)
Lemma annotate_trace (l : loc) (text : PyVal) (p : Contour) (w : World) :
  trace (snd (annotate l text p w)) = trace w.
Proof.
  unfold annotate, bind, lift, deref, store, ret; simpl.
  destruct (text_org p); [|done]. destruct (as_str text); [|done].
  destruct (heap w !! l) eqn:Hl; [|done]. simpl.
  destruct (py_getitem p 0); [|done]. destruct (py_getitem p 2); [|done].
  simpl. by rewrite lookup_insert_eq.
Qed.

(** On a quadrilateral and a string both drawing calls go through. *)
Lemma annotate_quad (l : loc) (s : string) (p0 p1 p2 p3 : Point)
    (w : World) (img : ColorImage) :
  heap w !! l = Some img ->
  annotate l (VStr s) [p0; p1; p2; p3] w =
  (Ret tt, mkWorld (<[l := annotated img s p0 p1 p2]> (heap w)) (trace w)).
Proof.
  intros Hl. unfold annotate, bind, lift, deref, store, ret; simpl.
  rewrite Hl. simpl. rewrite lookup_insert_eq. simpl.
  by rewrite insert_insert_eq.
Qed.

(** The min/max extraction has no guard of its own. *)
Lemma crop_plate_empty (gray mask : GrayImage) :
  hits mask 255 = [] -> crop_plate gray mask = Raise ValueError.
Proof. intros Hm. unfold crop_plate, np_where_eq. by rewrite Hm. Qed.


(** C4: with a quadrilateral located and cropped, an empty OCR result
    makes [process_image] return the not-found result; a non-empty one
    whose first entry is [(box, text, confidence)] makes it return
    exactly that [text], and the buffer is drawn on with that string. *)
Theorem C4_text_of_first_entry (l : loc) (w : World) (img : ColorImage)
    (p0 p1 p2 p3 : Point) (crop : GrayImage) :
  heap w !! l = Some img ->
  located img = Some [p0; p1; p2; p3] ->
  crop_plate (gray_of img) (make_mask (gray_of img) [p0; p1; p2; p3])
    = Ret crop ->
  (readtext crop = [] -> fst (process_image l w) = Ret not_found) /\
  (forall (box conf : PyVal) (text : string) (rest : list OcrEntry),
      readtext crop = [box; VStr text; conf] :: rest ->
      fst (process_image l w)
        = Ret (Some l, Some (VStr text), Some crop) /\
      heap (snd (process_image l w)) !! l
        = Some (annotated img text p0 p1 p2)).
Proof.
  intros Hl Hp Hc.
  rewrite (process_image_unfold l w img Hl), Hp, read_plate_unfold, Hc.
  split.
  - by intros ->.
  - intros box conf text rest ->.
    change (py_getitem [box; VStr text; conf] (-2)) with (Ret (VStr text)).
    cbv beta iota.
    rewrite (annotate_quad l text p0 p1 p2 p3 _ img); [|done].
    simpl. by rewrite lookup_insert_eq.
Qed.

(** C5: when none of the ten largest contours approximates to four
    vertices, [process_image] returns the not-found result and the
    only event of the run is the loading of the reader: [readtext] is
    not called. *)
Theorem C5_no_quad_no_ocr (l : loc) (w : World) (img : ColorImage) :
  heap w !! l = Some img ->
  (forall (i : nat) (c : Contour),
      (i < 10)%nat -> ranked img !! i = Some c -> ~ is_quad c) ->
  fst (process_image l w) = Ret not_found /\
  events_of_run w (snd (process_image l w)) = [EvLoadReader] /\
  existsb is_readtext (events_of_run w (snd (process_image l w))) = false.
Proof.
  intros Hl Hnone.
  assert (located img = None) as Hloc.
  { apply find_location_None, Forall_forall. intros c Hc.
    apply list_elem_of_lookup in Hc as [i Hi].
    apply lookup_take_Some in Hi as [Hi Hlt]. by apply (Hnone i). }
  rewrite (process_image_unfold l w img Hl), Hloc.
  unfold events_of_run, loaded; simpl.
  rewrite drop_app_length. done.
Qed.

(** C7: the exit taken when no quadrilateral is found and the exit
    taken when OCR returns nothing hand the caller the same value,
    [(None, None, None)] -- no image, no text, no crop -- and neither
    touches any buffer. *)
Theorem C7_uniform_not_found (l1 l2 : loc) (w1 w2 : World)
    (img1 img2 : ColorImage) (p : Contour) (crop : GrayImage) :
  heap w1 !! l1 = Some img1 -> located img1 = None ->
  heap w2 !! l2 = Some img2 -> located img2 = Some p ->
  crop_plate (gray_of img2) (make_mask (gray_of img2) p) = Ret crop ->
  readtext crop = [] ->
  fst (process_image l1 w1) = Ret (None, None, None) /\
  fst (process_image l2 w2) = Ret (None, None, None) /\
  fst (process_image l1 w1) = fst (process_image l2 w2) /\
  heap (snd (process_image l1 w1)) = heap w1 /\
  heap (snd (process_image l2 w2)) = heap w2.
Proof.
  intros Hl1 Hn1 Hl2 Hp2 Hc Hr.
  rewrite (process_image_unfold l1 w1 img1 Hl1), Hn1.
  rewrite (process_image_unfold l2 w2 img2 Hl2), Hp2.
  rewrite read_plate_unfold, Hc, Hr. done.
Qed.

(** C9: a run that ends in the not-found result leaves every buffer
    as it was; and whenever a run changed the heap at all, [readtext]
    had been called before and had returned a non-empty sequence. *)
Theorem C9_failure_leaves_buffer (l : loc) (w : World) :
  (fst (process_image l w) = Ret not_found ->
   heap (snd (process_image l w)) = heap w) /\
  (heap (snd (process_image l w)) <> heap w ->
   exists crop : GrayImage,
     readtext crop <> [] /\
     events_of_run w (snd (process_image l w))
       = [EvLoadReader; EvReadText crop]).
Proof.
  destruct (heap w !! l) as [img|] eqn:Hl.
  - rewrite (process_image_unfold l w img Hl).
    destruct (located img) as [p|]; [|by split].
    rewrite read_plate_unfold.
    destruct (crop_plate _ _) as [crop|e]; [|by split].
    destruct (readtext crop) as [|entry rest] eqn:Hr; [by split|].
    destruct (py_getitem entry (-2)) as [text|e]; [|by split].
    pose proof (annotate_trace l text p (ocr_called (loaded w) crop)) as Ht.
    destruct (annotate l text p (ocr_called (loaded w) crop)) as [[[]|e] w'].
    + split; [done|]. intros _. exists crop. split; [by rewrite Hr|].
      unfold events_of_run. simpl in *. rewrite Ht, <- app_assoc.
      by rewrite drop_app_length.
    + split; [done|]. intros _. exists crop. split; [by rewrite Hr|].
      unfold events_of_run. simpl in *. rewrite Ht, <- app_assoc.
      by rewrite drop_app_length.
  - unfold process_image, bind, load_reader, emit, deref; simpl.
    rewrite Hl. by split.
Qed.
End RunFacts.

(** ** Drawing, and what a caller can observe *)

Section DrawFacts.
Context `{cv2 : Cv2} `{reader : Reader}.

(** [annotate] acts on the one buffer it is given, through its content
    only. *)
Lemma annotate_drawn (l : loc) (text : PyVal) (p : Contour) (w : World)
    (img : ColorImage) :
  heap w !! l = Some img ->
  annotate l text p w =
  (fst (drawn img text p),
   mkWorld (<[l := snd (drawn img text p)]> (heap w)) (trace w)).
Proof.
  intros Hl. destruct w as [h t]. simpl in Hl.
  unfold annotate, drawn, bind, lift, deref, store, ret; simpl.
  destruct (text_org p); [|by rewrite insert_id].
  destruct (as_str text); [|by rewrite insert_id].
  rewrite Hl; simpl.
  destruct (py_getitem p 0); [|done].
  destruct (py_getitem p 2); [|done].
  simpl. rewrite lookup_insert_eq. simpl. by rewrite insert_insert_eq.
Qed.

(** C6 (as the code has it): on the success path the text is drawn
    with its origin at (x of vertex 0, y of vertex 1 plus 60) and the
    rectangle joins vertex 0 and vertex 2; both are drawn on the
    buffer that was passed in, which is also the image returned, and
    no other buffer changes. *)
Theorem C6_annotation_in_place (l : loc) (w : World) (img : ColorImage)
    (p0 p1 p2 p3 : Point) (crop : GrayImage) (entry : OcrEntry)
    (rest : list OcrEntry) (s : string) :
  heap w !! l = Some img ->
  located img = Some [p0; p1; p2; p3] ->
  crop_plate (gray_of img) (make_mask (gray_of img) [p0; p1; p2; p3])
    = Ret crop ->
  readtext crop = entry :: rest ->
  py_getitem entry (-2) = Ret (VStr s) ->
  text_org [p0; p1; p2; p3] = Ret (fst p0, snd p1 + 60) /\
  fst (process_image l w) = Ret (Some l, Some (VStr s), Some crop) /\
  heap (snd (process_image l w)) =
    <[l := rectangle
             (putText img s (fst p0, snd p1 + 60) FONT_HERSHEY_SIMPLEX 1
                (0, 255, 0) 2 LINE_AA)
             p0 p2 (0, 255, 0) 3]> (heap w) /\
  (forall l' : loc,
      l' <> l -> heap (snd (process_image l w)) !! l' = heap w !! l').
Proof.
  intros Hl Hp Hc Hr Ht. split; [done|].
  rewrite (process_image_unfold l w img Hl), Hp, read_plate_unfold.
  rewrite Hc, Hr, Ht.
  rewrite (annotate_quad l s p0 p1 p2 p3 _ img); [|done].
  simpl. repeat split.
  intros l' Hne. by rewrite lookup_insert_ne.
Qed.

(** Two runs on buffers holding the same picture -- whatever else the
    two heaps and logs hold -- end the same way, return the same text
    and the same crop, leave the same picture in the buffer, and make
    the same calls. *)
Lemma observe_equal_pictures (l1 l2 : loc) (w1 w2 : World)
    (img : ColorImage) :
  heap w1 !! l1 = Some img ->
  heap w2 !! l2 = Some img ->
  observe l1 w1 (process_image l1 w1) = observe l2 w2 (process_image l2 w2).
Proof.
  intros H1 H2.
  rewrite (process_image_unfold l1 w1 img H1).
  rewrite (process_image_unfold l2 w2 img H2).
  destruct (located img) as [p|].
  - rewrite !read_plate_unfold.
    destruct (crop_plate _ _) as [crop|e].
    + destruct (readtext crop) as [|entry rest].
      * unfold observe, events_of_run; simpl.
        rewrite H1, H2, <- !app_assoc, !drop_app_length. done.
      * destruct (py_getitem entry (-2)) as [text|e].
        -- rewrite (annotate_drawn l1 text p _ img); [|done].
           rewrite (annotate_drawn l2 text p _ img); [|done].
           destruct (drawn img text p) as [[[]|e] img'];
             unfold observe, events_of_run; simpl;
             rewrite !lookup_insert_eq, <- !app_assoc, !drop_app_length;
             done.
        -- unfold observe, events_of_run; simpl.
           rewrite H1, H2, <- !app_assoc, !drop_app_length. done.
    + unfold observe, events_of_run; simpl.
      rewrite H1, H2, !drop_app_length. done.
  - unfold observe, events_of_run; simpl.
    rewrite H1, H2, !drop_app_length. done.
Qed.
End DrawFacts.

(** ** Index extraction and slicing *)

Section IndexFacts.

Lemma elem_of_row_hits (v : Z) (r : nat) (row : list Z) (q : nat * nat) :
  q ∈ row_hits v r row <-> exists c : nat, q = (r, c) /\ row !! c = Some v.
Proof.
  unfold row_hits. rewrite list_elem_of_omap. split.
  - intros ([c x] & Hin & Hf). simpl in Hf.
    apply elem_of_lookup_imap in Hin as (i & y & [= -> ->] & Hy).
    destruct (Z.eqb_spec y v) as [->|]; [|done].
    injection Hf as <-. by exists i.
  - intros (c & -> & Hc). exists (c, v). split.
    + apply elem_of_lookup_imap. by exists c, v.
    + simpl. by rewrite Z.eqb_refl.
Qed.

Lemma elem_of_hits (m : list (list Z)) (v : Z) (r c : nat) :
  (r, c) ∈ hits m v <-> px m r c = Some v.
Proof.
  unfold hits, px. rewrite list_elem_of_In, in_concat. split.
  - intros (hs & Hhs & Hin).
    apply list_elem_of_In, elem_of_lookup_imap in Hhs as (i & row & -> & Hrow).
    apply list_elem_of_In, elem_of_row_hits in Hin as (c' & [= -> ->] & Hc).
    by rewrite Hrow.
  - destruct (m !! r) as [row|] eqn:Hrow; [|done]. intros Hc.
    exists (row_hits v r row). split.
    + apply list_elem_of_In, elem_of_lookup_imap. by exists r, row.
    + apply list_elem_of_In, elem_of_row_hits. by exists c.
Qed.

Lemma foldr_min_spec (a : nat) (l : list nat) :
  foldr Nat.min a l ∈ a :: l /\
  forall x : nat, x ∈ a :: l -> (foldr Nat.min a l <= x)%nat.
Proof.
  induction l as [|b l [IHin IHle]]; simpl.
  - split; [apply list_elem_of_here|].
    intros x Hx. apply list_elem_of_singleton in Hx. lia.
  - split.
    + destruct (Nat.min_spec b (foldr Nat.min a l)) as [[_ ->]|[_ ->]].
      * apply list_elem_of_further, list_elem_of_here.
      * apply elem_of_cons in IHin as [->|Hin];
          [apply list_elem_of_here|by do 2 apply list_elem_of_further].
    + intros x Hx.
      assert (x = b \/ x ∈ a :: l) as [->|Hx'].
      { apply elem_of_cons in Hx as [->|Hx]; [right; apply list_elem_of_here|].
        apply elem_of_cons in Hx as [->|Hx]; [by left|].
        right. by apply list_elem_of_further. }
      * lia.
      * specialize (IHle x Hx'). lia.
Qed.

Lemma foldr_max_spec (a : nat) (l : list nat) :
  foldr Nat.max a l ∈ a :: l /\
  forall x : nat, x ∈ a :: l -> (x <= foldr Nat.max a l)%nat.
Proof.
  induction l as [|b l [IHin IHle]]; simpl.
  - split; [apply list_elem_of_here|].
    intros x Hx. apply list_elem_of_singleton in Hx. lia.
  - split.
    + destruct (Nat.max_spec b (foldr Nat.max a l)) as [[_ ->]|[_ ->]].
      * apply elem_of_cons in IHin as [->|Hin];
          [apply list_elem_of_here|by do 2 apply list_elem_of_further].
      * apply list_elem_of_further, list_elem_of_here.
    + intros x Hx.
      assert (x = b \/ x ∈ a :: l) as [->|Hx'].
      { apply elem_of_cons in Hx as [->|Hx]; [right; apply list_elem_of_here|].
        apply elem_of_cons in Hx as [->|Hx]; [by left|].
        right. by apply list_elem_of_further. }
      * lia.
      * specialize (IHle x Hx'). lia.
Qed.

Lemma np_min_spec (l : list nat) (m : nat) :
  np_min l = Ret m -> m ∈ l /\ forall x : nat, x ∈ l -> (m <= x)%nat.
Proof.
  destruct l as [|a l]; simpl; [done|]. intros [= <-]. apply foldr_min_spec.
Qed.

Lemma np_max_spec (l : list nat) (m : nat) :
  np_max l = Ret m -> m ∈ l /\ forall x : nat, x ∈ l -> (x <= m)%nat.
Proof.
  destruct l as [|a l]; simpl; [done|]. intros [= <-]. apply foldr_max_spec.
Qed.

(** The cropper returns exactly when the mask has a foreground pixel,
    and then the slice bounds are the tight box of the foreground. *)
Lemma crop_plate_spec (gray mask : GrayImage) :
  hits mask 255 <> [] ->
  exists r1 r2 c1 c2 : nat,
    crop_plate gray mask =
      Ret (py_slice c1 (c2 + 1) <$> py_slice r1 (r2 + 1) gray) /\
    tight_box mask r1 r2 c1 c2.
Proof.
  intros Hne. unfold crop_plate, np_where_eq.
  destruct (hits mask 255) as [|[r0 c0] hs] eqn:Hh; [done|].
  rewrite <- Hh.
  assert (forall r c, fg mask r c <-> (r, c) ∈ hits mask 255) as Hfg.
  { intros r c. unfold fg. by rewrite elem_of_hits. }
  destruct (np_min (fst <$> hits mask 255)) as [r1|e] eqn:E1;
    [|by rewrite Hh in E1].
  destruct (np_min (snd <$> hits mask 255)) as [c1|e] eqn:E2;
    [|by rewrite Hh in E2].
  destruct (np_max (fst <$> hits mask 255)) as [r2|e] eqn:E3;
    [|by rewrite Hh in E3].
  destruct (np_max (snd <$> hits mask 255)) as [c2|e] eqn:E4;
    [|by rewrite Hh in E4].
  exists r1, r2, c1, c2. split; [done|].
  apply np_min_spec in E1 as [I1 L1], E2 as [I2 L2].
  apply np_max_spec in E3 as [I3 L3], E4 as [I4 L4].
  apply list_elem_of_fmap in I1 as ([a1 b1] & -> & I1).
  apply list_elem_of_fmap in I2 as ([a2 b2] & -> & I2).
  apply list_elem_of_fmap in I3 as ([a3 b3] & -> & I3).
  apply list_elem_of_fmap in I4 as ([a4 b4] & -> & I4).
  simpl in *. repeat split.
  - apply L1, list_elem_of_fmap. exists (r, c). split; [done|by apply Hfg].
  - apply L3, list_elem_of_fmap. exists (r, c). split; [done|by apply Hfg].
  - apply L2, list_elem_of_fmap. exists (r, c). split; [done|by apply Hfg].
  - apply L4, list_elem_of_fmap. exists (r, c). split; [done|by apply Hfg].
  - exists b1. by apply Hfg.
  - exists b3. by apply Hfg.
  - exists a2. by apply Hfg.
  - exists a4. by apply Hfg.
Qed.

Lemma tight_box_unique (mask : GrayImage) (r1 r2 c1 c2 r1' r2' c1' c2' : nat) :
  tight_box mask r1 r2 c1 c2 -> tight_box mask r1' r2' c1' c2' ->
  r1 = r1' /\ r2 = r2' /\ c1 = c1' /\ c2 = c2'.
Proof.
  intros (Hin & [a Ha] & [b Hb] & [c Hc] & [d Hd])
         (Hin' & [a' Ha'] & [b' Hb'] & [c' Hc'] & [d' Hd']).
  pose proof (Hin _ _ Ha'). pose proof (Hin _ _ Hb').
  pose proof (Hin _ _ Hc'). pose proof (Hin _ _ Hd').
  pose proof (Hin' _ _ Ha). pose proof (Hin' _ _ Hb).
  pose proof (Hin' _ _ Hc). pose proof (Hin' _ _ Hd). lia.
Qed.
End IndexFacts.

(** ** Slices of a rectangular array *)

Section SliceFacts.
Context {A : Type}.

Lemma py_slice_length (a b : nat) (l : list A) :
  (b <= length l)%nat -> length (py_slice a b l) = (b - a)%nat.
Proof.
  intros Hb. unfold py_slice. by rewrite length_drop, length_take_le.
Qed.

Lemma py_slice_lookup (a b : nat) (l : list A) (i : nat) :
  (a + i < b)%nat -> py_slice a b l !! i = l !! (a + i)%nat.
Proof.
  intros Hi. unfold py_slice. by rewrite lookup_drop, lookup_take_lt.
Qed.

Lemma rectangular_row (a : list (list A)) (i : nat) (row : list A) :
  rectangular a = true -> a !! i = Some row ->
  length row = snd (shape a).
Proof.
  unfold rectangular. rewrite forallb_forall. intros Hall Hrow.
  apply Nat.eqb_eq, Hall, list_elem_of_In, list_elem_of_lookup. by exists i.
Qed.

Lemma shape_np_zeros (a : list (list A)) :
  shape (np_zeros (shape a)) = shape a.
Proof.
  destruct a as [|row a]; [done|]. unfold shape, np_zeros; simpl.
  by rewrite !length_replicate.
Qed.
End SliceFacts.

Lemma crop_restriction (gray : list (list Z)) (r1 r2 c1 c2 : nat) :
  rectangular gray = true ->
  (r1 <= r2 < fst (shape gray))%nat ->
  (c1 <= c2 < snd (shape gray))%nat ->
  restriction gray r1 r2 c1 c2
    (py_slice c1 (c2 + 1) <$> py_slice r1 (r2 + 1) gray).
Proof.
  intros Hrect [Hr Hr2] [Hc Hc2]. simpl in Hr2.
  assert (forall i row,
             py_slice r1 (r2 + 1) gray !! i = Some row ->
             length row = snd (shape gray)) as Hrows.
  { intros i row Hi.
    assert (i < length (py_slice r1 (r2 + 1) gray))%nat as Hlt
      by (by eapply lookup_lt_Some).
    rewrite py_slice_length in Hlt by lia.
    rewrite py_slice_lookup in Hi by lia.
    by eapply rectangular_row. }
  repeat split.
  - rewrite length_fmap, py_slice_length; lia.
  - apply Forall_fmap, Forall_lookup. intros i row Hi. simpl.
    rewrite py_slice_length; [lia|]. rewrite (Hrows i row Hi). lia.
  - unfold px. rewrite list_lookup_fmap, py_slice_lookup by lia.
    destruct (lookup_lt_is_Some_2 gray (r1 + i)) as [row Hrow]; [lia|].
    rewrite Hrow. simpl. rewrite py_slice_lookup by lia.
    apply lookup_lt_is_Some_2.
    rewrite (rectangular_row gray (r1 + i) row Hrect Hrow). lia.
  - unfold px. rewrite list_lookup_fmap, py_slice_lookup by lia.
    destruct (gray !! (r1 + i)%nat) as [row|]; [|done].
    simpl. by rewrite py_slice_lookup by lia.
Qed.

(** Slicing a rectangular array over its whole extent gives it back. *)
Lemma slice_full (gray : list (list Z)) (r2 c2 : nat) :
  rectangular gray = true ->
  (r2 + 1)%nat = fst (shape gray) -> (c2 + 1)%nat = snd (shape gray) ->
  py_slice 0 (c2 + 1) <$> py_slice 0 (r2 + 1) gray = gray.
Proof.
  intros Hrect Hr Hc. simpl in Hr. unfold py_slice at 2.
  rewrite drop_0, take_ge by lia.
  apply list_eq. intros i. rewrite list_lookup_fmap.
  destruct (gray !! i) as [row|] eqn:Hrow; [|done].
  simpl. f_equal. unfold py_slice. rewrite drop_0, take_ge; [done|].
  rewrite (rectangular_row gray i row Hrect Hrow). lia.
Qed.

(** ** The mask *)

Section MaskFacts.
Context `{cv2 : Cv2}.

(** The foreground of the mask: the painted pixels of the array. *)
Lemma fg_make_mask (gray : list (list Z)) (p : Contour) (r c : nat) :
  fg (make_mask gray p) r c <->
  (r < fst (shape gray))%nat /\ (c < snd (shape gray))%nat /\
  drawContours_paints (shape gray) [p] 0 (-1) r c = true.
Proof.
  unfold fg, px, make_mask, drawContours.
  rewrite shape_np_zeros, list_lookup_imap.
  unfold np_zeros at 1.
  destruct (shape gray) as [H W]. cbn [fst snd].
  destruct (decide (r < H)%nat) as [Hr|Hr].
  - rewrite lookup_replicate_2 by done. simpl.
    rewrite list_lookup_imap.
    destruct (decide (c < W)%nat) as [Hc|Hc].
    + rewrite lookup_replicate_2 by done. simpl.
      destruct (drawContours_paints _ _ _ _ r c); split; try done.
      by intros (_ & _ & ?).
    + rewrite (proj1 (lookup_replicate_None _ _ _)) by lia.
      simpl. split; [done|]. intros (_ & ? & _). lia.
  - rewrite (proj1 (lookup_replicate_None _ _ _)) by lia.
    simpl. split; [done|]. intros (? & _). lia.
Qed.

Lemma vertices_painted_fg (gray : list (list Z)) (p : Contour) (v : Point) :
  vertices_painted (shape gray) p = true -> v ∈ p ->
  exists r c : nat,
    snd v = Z.of_nat r /\ fst v = Z.of_nat c /\ fg (make_mask gray p) r c.
Proof.
  unfold vertices_painted. rewrite forallb_forall. intros Hall Hv.
  apply list_elem_of_In, Hall in Hv. unfold vertex_painted in Hv.
  apply andb_true_iff in Hv as [Hv Hp].
  apply andb_true_iff in Hv as [Hv Hc].
  apply andb_true_iff in Hv as [Hv Hr].
  apply andb_true_iff in Hv as [Hx Hy].
  apply Z.leb_le in Hx, Hy. apply Nat.ltb_lt in Hr, Hc.
  exists (Z.to_nat (snd v)), (Z.to_nat (fst v)).
  rewrite !Z2Nat.id by done. repeat split.
  by apply fg_make_mask.
Qed.

Lemma fill_in_hull_fg (gray : list (list Z)) (p : Contour) (r c : nat) :
  fill_in_hull (shape gray) p = true -> fg (make_mask gray p) r c ->
  (exists v : Point, v ∈ p /\ snd v <= Z.of_nat r) /\
  (exists v : Point, v ∈ p /\ Z.of_nat r <= snd v) /\
  (exists v : Point, v ∈ p /\ fst v <= Z.of_nat c) /\
  (exists v : Point, v ∈ p /\ Z.of_nat c <= fst v).
Proof.
  unfold fill_in_hull. rewrite forallb_forall.
  intros Hall (Hr & Hc & Hp)%fg_make_mask.
  specialize (Hall r). rewrite forallb_forall in Hall.
  assert (In r (seq 0 (fst (shape gray)))) as Hin by (apply in_seq; lia).
  specialize (Hall Hin c).
  assert (In c (seq 0 (snd (shape gray)))) as Hin' by (apply in_seq; lia).
  specialize (Hall Hin'). rewrite Hp in Hall. simpl in Hall.
  unfold inside_hull_box in Hall.
  apply andb_true_iff in Hall as [Hall H4].
  apply andb_true_iff in Hall as [Hall H3].
  apply andb_true_iff in Hall as [H1 H2].
  apply existsb_exists in H1 as (v1 & I1 & L1), H2 as (v2 & I2 & L2).
  apply existsb_exists in H3 as (v3 & I3 & L3), H4 as (v4 & I4 & L4).
  apply Z.leb_le in L1, L2, L3, L4. apply list_elem_of_In in I1, I2, I3, I4.
  repeat split; eauto.
Qed.

(** With a sane fill, the tight box of the foreground is the tight
    box of the polygon's vertices. *)
Lemma tight_box_hull (gray : list (list Z)) (p : Contour)
    (r1 r2 c1 c2 : nat) :
  vertices_painted (shape gray) p = true ->
  fill_in_hull (shape gray) p = true ->
  tight_box (make_mask gray p) r1 r2 c1 c2 ->
  hull_box p r1 r2 c1 c2.
Proof.
  intros Hvp Hfh (Hin & [a Ha] & [b Hb] & [c Hc] & [d Hd]).
  assert (forall v, v ∈ p ->
            Z.of_nat r1 <= snd v <= Z.of_nat r2 /\
            Z.of_nat c1 <= fst v <= Z.of_nat c2) as Hbox.
  { intros v Hv.
    destruct (vertices_painted_fg gray p v Hvp Hv) as (r & c' & -> & -> & Hfg).
    specialize (Hin r c' Hfg). lia. }
  split; [done|].
  destruct (fill_in_hull_fg gray p _ _ Hfh Ha) as ((v1 & I1 & L1) & _).
  destruct (fill_in_hull_fg gray p _ _ Hfh Hb) as (_ & (v2 & I2 & L2) & _).
  destruct (fill_in_hull_fg gray p _ _ Hfh Hc) as (_ & _ & (v3 & I3 & L3) & _).
  destruct (fill_in_hull_fg gray p _ _ Hfh Hd) as (_ & _ & _ & (v4 & I4 & L4)).
  pose proof (Hbox v1 I1). pose proof (Hbox v2 I2).
  pose proof (Hbox v3 I3). pose proof (Hbox v4 I4).
  repeat split.
  - exists v1. split; [done|lia].
  - exists v2. split; [done|lia].
  - exists v3. split; [done|lia].
  - exists v4. split; [done|lia].
Qed.

Lemma hits_nonempty (mask : list (list Z)) (r c : nat) :
  fg mask r c -> hits mask 255 <> [].
Proof.
  intros Hfg%elem_of_hits Hnil. rewrite Hnil in Hfg.
  by apply not_elem_of_nil in Hfg.
Qed.

Lemma tight_box_in_shape (gray : list (list Z)) (p : Contour)
    (r1 r2 c1 c2 : nat) :
  tight_box (make_mask gray p) r1 r2 c1 c2 ->
  (r1 <= r2 < fst (shape gray))%nat /\ (c1 <= c2 < snd (shape gray))%nat.
Proof.
  intros (Hin & [a Ha] & [b Hb] & [c Hc] & [d Hd]).
  pose proof (Hin _ _ Ha). pose proof (Hin _ _ Hd).
  apply fg_make_mask in Hb as (? & _), Hd as (_ & ? & _). lia.
Qed.
End MaskFacts.

(** ** The cropper *)

Section CropFacts.
Context `{cv2 : Cv2} `{reader : Reader}.

(** After the OCR call the log is settled: nothing later adds to it. *)
Lemma read_plate_events (l : loc) (img : ColorImage) (gray : GrayImage)
    (p : Contour) (w0 w : World) (crop : GrayImage) :
  crop_plate gray (make_mask gray p) = Ret crop ->
  trace w = trace w0 ++ [EvLoadReader] ->
  events_of_run w0 (snd (read_plate l img gray p w))
    = [EvLoadReader; EvReadText crop] /\
  forall (i : option loc) (t : option PyVal) (c : GrayImage),
    fst (read_plate l img gray p w) = Ret (i, t, Some c) -> c = crop.
Proof.
  intros Hc Ht. rewrite read_plate_unfold, Hc.
  assert (drop (length (trace w0))
            ((trace w0 ++ [EvLoadReader]) ++ [EvReadText crop])
          = [EvLoadReader; EvReadText crop]) as Hdrop.
  { by rewrite <- app_assoc, drop_app_length. }
  destruct (readtext crop) as [|entry rest].
  { unfold events_of_run; simpl. rewrite Ht. split; [done|].
    intros i t c [=]. }
  destruct (py_getitem entry (-2)) as [text|e].
  2:{ unfold events_of_run; simpl. rewrite Ht. split; [done|].
      intros i t c [=]. }
  pose proof (annotate_trace l text p (ocr_called w crop)) as Ha.
  destruct (annotate l text p (ocr_called w crop)) as [[[]|e] w'];
    unfold events_of_run; simpl in *; rewrite Ha, Ht; (split; [done|]).
  - by intros i t c [= _ _ <-].
  - intros i t c [=].
Qed.

(** C10: when the filled mask has a foreground pixel, the cropper
    returns; its row and column bounds are ordered and lie inside the
    grayscale image, and the crop is that in-bounds block: at least
    one row and one column, no taller and no wider than the input. *)
Theorem C10_crop_in_bounds (img : ColorImage) (p : Contour) :
  rectangular (gray_of img) = true ->
  shape (gray_of img) = shape img ->
  hits (make_mask (gray_of img) p) 255 <> [] ->
  exists (r1 r2 c1 c2 : nat) (crop : GrayImage),
    crop_plate (gray_of img) (make_mask (gray_of img) p) = Ret crop /\
    tight_box (make_mask (gray_of img) p) r1 r2 c1 c2 /\
    (r1 <= r2 < fst (shape (gray_of img)))%nat /\
    (c1 <= c2 < snd (shape (gray_of img)))%nat /\
    restriction (gray_of img) r1 r2 c1 c2 crop /\
    (1 <= length crop <= fst (shape img))%nat /\
    Forall (fun row => (1 <= length row <= snd (shape img))%nat) crop.
Proof.
  intros Hrect Hshape Hne.
  destruct (crop_plate_spec (gray_of img) _ Hne)
    as (r1 & r2 & c1 & c2 & Hcrop & Htight).
  destruct (tight_box_in_shape _ _ _ _ _ _ Htight) as [Hr Hc].
  pose proof (crop_restriction _ r1 r2 c1 c2 Hrect Hr Hc) as Hres.
  exists r1, r2, c1, c2,
    (py_slice c1 (c2 + 1) <$> py_slice r1 (r2 + 1) (gray_of img)).
  do 5 (split; [done|]).
  destruct Hres as (Hlen & Hrows & _). split.
  - rewrite Hlen, <- Hshape. lia.
  - eapply Forall_impl; [exact Hrows|].
    intros row Hrow. cbv beta in *. rewrite Hrow, <- Hshape. lia.
Qed.

(** C3: for the polygon the locator produced, filled by a sane fill,
    the crop -- the image handed to OCR and the one returned on
    success -- is the grayscale image restricted to the rows and
    columns spanned by the mask's foreground, which is the smallest
    axis-aligned rectangle around the polygon's vertices; when the
    polygon has the image's two opposite corners among its vertices,
    the crop is the whole grayscale image. *)
Theorem C3_crop_is_bounding_box (l : loc) (w : World) (img : ColorImage)
    (p : Contour) :
  heap w !! l = Some img ->
  located img = Some p ->
  rectangular (gray_of img) = true ->
  vertices_painted (shape (gray_of img)) p = true ->
  fill_in_hull (shape (gray_of img)) p = true ->
  exists (crop : GrayImage) (r1 r2 c1 c2 : nat),
    crop_plate (gray_of img) (make_mask (gray_of img) p) = Ret crop /\
    events_of_run w (snd (process_image l w))
      = [EvLoadReader; EvReadText crop] /\
    (forall (i : option loc) (t : option PyVal) (c : GrayImage),
        fst (process_image l w) = Ret (i, t, Some c) -> c = crop) /\
    tight_box (make_mask (gray_of img) p) r1 r2 c1 c2 /\
    hull_box p r1 r2 c1 c2 /\
    restriction (gray_of img) r1 r2 c1 c2 crop /\
    ((0, 0) ∈ p ->
     (Z.of_nat (snd (shape (gray_of img))) - 1,
      Z.of_nat (fst (shape (gray_of img))) - 1) ∈ p ->
     crop = gray_of img).
Proof.
  intros Hl Hp Hrect Hvp Hfh.
  assert (hits (make_mask (gray_of img) p) 255 <> []) as Hne.
  { pose proof (find_location_quad _ _ Hp) as Hlen.
    destruct p as [|v p']; [done|].
    destruct (vertices_painted_fg (gray_of img) (v :: p') v Hvp)
      as (r & c & _ & _ & Hfg); [apply list_elem_of_here|].
    by eapply hits_nonempty. }
  destruct (crop_plate_spec (gray_of img) _ Hne)
    as (r1 & r2 & c1 & c2 & Hcrop & Htight).
  destruct (tight_box_in_shape _ _ _ _ _ _ Htight) as [Hr Hc].
  pose proof (tight_box_hull _ _ _ _ _ _ Hvp Hfh Htight) as Hhull.
  eexists _, r1, r2, c1, c2. split; [exact Hcrop|].
  rewrite (process_image_unfold l w img Hl), Hp.
  destruct (read_plate_events l img (gray_of img) p w (loaded w) _ Hcrop)
    as [Hev Hret]; [done|].
  do 4 (split; [done|]).
  split; [by apply crop_restriction|].
  intros H00 Hwh. destruct Hhull as (Hbox & _).
  apply Hbox in H00, Hwh. cbn [fst snd] in H00, Hwh.
  assert (r1 = 0%nat) as -> by lia. assert (c1 = 0%nat) as -> by lia.
  apply slice_full; [done|lia|lia].
Qed.
End CropFacts.

(** * Concrete runs *)

Section Runs.
Import Demo.
#[local] Existing Instance cv2_demo.
#[local] Existing Instance reader_demo.

Lemma C1_locator_witness :
  heap (world_of plate_img) !! 1%positive = Some plate_img /\
  ranked plate_img = [plate_quad; triangle] /\
  all_contours plate_img = [triangle; plate_quad] /\
  located plate_img = Some plate_quad /\
  process_image 1%positive (world_of plate_img)
    = read_plate 1%positive plate_img (gray_of plate_img) plate_quad
        (loaded (world_of plate_img)).
Proof.
  split; [reflexivity|].
  do 3 (split; [reflexivity|]).
  pose proof (C1_locator_greedy_top10 1%positive (world_of plate_img)
                plate_img eq_refl) as (_ & _ & _ & Hsel).
  change (located plate_img) with (Some plate_quad) in Hsel.
  exact (proj2 Hsel).
Defined.


Lemma C3_crop_witness :
  heap (world_of full_img) !! 1%positive = Some full_img /\
  located full_img = Some full_quad /\
  rectangular (gray_of full_img) = true /\
  vertices_painted (shape (gray_of full_img)) full_quad = true /\
  fill_in_hull (shape (gray_of full_img)) full_quad = true /\
  exists crop : GrayImage,
    crop_plate (gray_of full_img) (make_mask (gray_of full_img) full_quad)
      = Ret crop /\
    events_of_run (world_of full_img)
      (snd (process_image 1%positive (world_of full_img)))
      = [EvLoadReader; EvReadText crop] /\
    crop = gray_of full_img.
Proof.
  do 5 (split; [reflexivity|]).
  assert (located full_img = Some full_quad) as Hp by reflexivity.
  assert (rectangular (gray_of full_img) = true) as Hrect by reflexivity.
  assert (vertices_painted (shape (gray_of full_img)) full_quad = true)
    as Hvp by reflexivity.
  assert (fill_in_hull (shape (gray_of full_img)) full_quad = true)
    as Hfh by reflexivity.
  destruct (C3_crop_is_bounding_box 1%positive (world_of full_img)
              full_img full_quad eq_refl Hp Hrect Hvp Hfh)
    as (crop & r1 & r2 & c1 & c2 & Hc & Hev & _ & _ & _ & _ & Hfull).
  exists crop. split; [exact Hc|]. split; [exact Hev|].
  apply Hfull.
  - apply list_elem_of_here.
  - do 2 apply list_elem_of_further. apply list_elem_of_here.
Defined.

Lemma C4_text_witness :
  heap (world_of plate_img) !! 1%positive = Some plate_img /\
  located plate_img = Some [(1, 1); (3, 1); (3, 2); (1, 2)] /\
  crop_plate (gray_of plate_img)
    (make_mask (gray_of plate_img) [(1, 1); (3, 1); (3, 2); (1, 2)])
    = Ret plate_crop /\
  readtext plate_crop = [[VStr "box"; VStr "ABC123"; VFloat (9 # 10)]] /\
  fst (process_image 1%positive (world_of plate_img))
    = Ret (Some 1%positive, Some (VStr "ABC123"), Some plate_crop) /\
  heap (snd (process_image 1%positive (world_of plate_img))) !! 1%positive
    = Some (annotated plate_img "ABC123" (1, 1) (3, 1) (3, 2)).
Proof.
  do 4 (split; [reflexivity|]).
  exact (proj2 (C4_text_of_first_entry 1%positive (world_of plate_img)
                  plate_img (1, 1) (3, 1) (3, 2) (1, 2) plate_crop
                  eq_refl eq_refl eq_refl)
           (VStr "box") (VFloat (9 # 10)) "ABC123"%string [] eq_refl).
Defined.

Lemma C5_no_quad_witness :
  heap (world_of plate_img) !! 1%positive = Some plate_img /\
  @ranked cv2_coarse plate_img = [plate_quad; triangle] /\
  fst (@process_image cv2_coarse reader_demo 1%positive (world_of plate_img))
    = Ret not_found /\
  events_of_run (world_of plate_img)
    (snd (@process_image cv2_coarse reader_demo 1%positive
            (world_of plate_img)))
    = [EvLoadReader].
Proof.
  split; [reflexivity|]. split; [reflexivity|].
  assert (forall (i : nat) (c : Contour),
             (i < 10)%nat -> @ranked cv2_coarse plate_img !! i = Some c ->
             ~ @is_quad cv2_coarse c) as Hnone.
  { intros i c _ Hc.
    change (@ranked cv2_coarse plate_img) with [plate_quad; triangle] in Hc.
    destruct i as [|[|i]]; simpl in Hc; [| |discriminate Hc];
      injection Hc as <-; unfold is_quad; simpl; lia. }
  destruct (@C5_no_quad_no_ocr cv2_coarse reader_demo 1%positive
              (world_of plate_img) plate_img eq_refl Hnone)
    as (Hres & Hev & _).
  split; [exact Hres|exact Hev].
Defined.
End Runs.

Section MoreRuns.
Import Demo.
#[local] Existing Instance cv2_demo.
#[local] Existing Instance reader_demo.

Lemma C6_annotation_witness :
  heap (world_of plate_img) !! 1%positive = Some plate_img /\
  located plate_img = Some [(1, 1); (3, 1); (3, 2); (1, 2)] /\
  crop_plate (gray_of plate_img)
    (make_mask (gray_of plate_img) [(1, 1); (3, 1); (3, 2); (1, 2)])
    = Ret plate_crop /\
  readtext plate_crop = [[VStr "box"; VStr "ABC123"; VFloat (9 # 10)]] /\
  py_getitem [VStr "box"; VStr "ABC123"; VFloat (9 # 10)] (-2)
    = Ret (VStr "ABC123") /\
  fst (process_image 1%positive (world_of plate_img))
    = Ret (Some 1%positive, Some (VStr "ABC123"), Some plate_crop) /\
  heap (snd (process_image 1%positive (world_of plate_img))) =
    <[1%positive :=
        rectangle
          (putText plate_img "ABC123" (1, 1 + 60) FONT_HERSHEY_SIMPLEX 1
             (0, 255, 0) 2 LINE_AA)
          (1, 1) (3, 2) (0, 255, 0) 3]> (heap (world_of plate_img)).
Proof.
  assert (heap (world_of plate_img) !! 1%positive = Some plate_img)
    as Hl by reflexivity.
  assert (located plate_img = Some [(1, 1); (3, 1); (3, 2); (1, 2)])
    as Hp by reflexivity.
  assert (crop_plate (gray_of plate_img)
            (make_mask (gray_of plate_img) [(1, 1); (3, 1); (3, 2); (1, 2)])
          = Ret plate_crop) as Hc by reflexivity.
  assert (readtext plate_crop
          = [[VStr "box"; VStr "ABC123"; VFloat (9 # 10)]])
    as Hr by reflexivity.
  assert (py_getitem [VStr "box"; VStr "ABC123"; VFloat (9 # 10)] (-2)
          = Ret (VStr "ABC123")) as Ht by reflexivity.
  destruct (C6_annotation_in_place 1%positive (world_of plate_img)
              plate_img (1, 1) (3, 1) (3, 2) (1, 2) plate_crop
              _ _ "ABC123"%string Hl Hp Hc Hr Ht)
    as (_ & Hres & Hheap & _).
  repeat (split; [assumption|]). exact Hheap.
Defined.

(** C6, as worded, fails on the plate picture: the run succeeds, the
    text origin is (1, 61) -- the column of vertex 0 -- which is not
    the second vertex (3, 1) moved 60 pixels up or down, and the
    buffer differs from one with the text drawn at either of those
    places. *)
Lemma C6_text_not_at_second_vertex :
  located plate_img = Some plate_quad /\
  fst (process_image 1%positive (world_of plate_img))
    = Ret (Some 1%positive, Some (VStr "ABC123"), Some plate_crop) /\
  text_org plate_quad = Ret (1, 61) /\
  ~ anchored_at_second_vertex plate_quad (1, 61) /\
  heap (snd (process_image 1%positive (world_of plate_img))) !! 1%positive
    <> Some (rectangle
               (putText plate_img "ABC123" (3, 1 + 60) FONT_HERSHEY_SIMPLEX
                  1 (0, 255, 0) 2 LINE_AA)
               (1, 1) (3, 2) (0, 255, 0) 3) /\
  heap (snd (process_image 1%positive (world_of plate_img))) !! 1%positive
    <> Some (rectangle
               (putText plate_img "ABC123" (3, 1 - 60) FONT_HERSHEY_SIMPLEX
                  1 (0, 255, 0) 2 LINE_AA)
               (1, 1) (3, 2) (0, 255, 0) 3).
Proof.
  do 3 (split; [reflexivity|]).
  split; [|split].
  - intros (p1 & Hp1 & Hx & _). injection Hp1 as <-. discriminate Hx.
  - intros Heq. vm_compute in Heq. discriminate Heq.
  - intros Heq. vm_compute in Heq. discriminate Heq.
Qed.

Lemma C7_uniform_witness :
  heap (world_of flat_img) !! 1%positive = Some flat_img /\
  located flat_img = None /\
  heap (world_of dim_img) !! 1%positive = Some dim_img /\
  located dim_img = Some plate_quad /\
  crop_plate (gray_of dim_img) (make_mask (gray_of dim_img) plate_quad)
    = Ret [[100; 100; 100]; [100; 100; 100]] /\
  readtext [[100; 100; 100]; [100; 100; 100]] = [] /\
  fst (process_image 1%positive (world_of flat_img))
    = fst (process_image 1%positive (world_of dim_img)) /\
  heap (snd (process_image 1%positive (world_of dim_img)))
    = heap (world_of dim_img).
Proof.
  assert (heap (world_of flat_img) !! 1%positive = Some flat_img)
    as Hl1 by reflexivity.
  assert (located flat_img = None) as Hn1 by reflexivity.
  assert (heap (world_of dim_img) !! 1%positive = Some dim_img)
    as Hl2 by reflexivity.
  assert (located dim_img = Some plate_quad) as Hp2 by reflexivity.
  assert (crop_plate (gray_of dim_img)
            (make_mask (gray_of dim_img) plate_quad)
          = Ret [[100; 100; 100]; [100; 100; 100]]) as Hc by reflexivity.
  assert (readtext [[100; 100; 100]; [100; 100; 100]] = [])
    as Hr by reflexivity.
  destruct (C7_uniform_not_found 1%positive 1%positive (world_of flat_img)
              (world_of dim_img) flat_img dim_img plate_quad
              [[100; 100; 100]; [100; 100; 100]] Hl1 Hn1 Hl2 Hp2 Hc Hr)
    as (_ & _ & Hsame & _ & Hheap).
  repeat (split; [assumption|]). exact Hheap.
Defined.

Lemma C9_failure_witness :
  fst (process_image 1%positive (world_of dim_img)) = Ret not_found /\
  heap (snd (process_image 1%positive (world_of dim_img)))
    = heap (world_of dim_img).
Proof.
  split; [reflexivity|].
  apply (proj1 (C9_failure_leaves_buffer 1%positive (world_of dim_img))).
  reflexivity.
Defined.

Lemma C10_crop_witness :
  rectangular (gray_of plate_img) = true /\
  shape (gray_of plate_img) = shape plate_img /\
  hits (make_mask (gray_of plate_img) plate_quad) 255 <> [] /\
  exists (r1 r2 c1 c2 : nat) (crop : GrayImage),
    crop_plate (gray_of plate_img) (make_mask (gray_of plate_img) plate_quad)
      = Ret crop /\
    (r1 <= r2 < fst (shape (gray_of plate_img)))%nat /\
    (c1 <= c2 < snd (shape (gray_of plate_img)))%nat /\
    (1 <= length crop <= fst (shape plate_img))%nat /\
    Forall (fun row => (1 <= length row <= snd (shape plate_img))%nat) crop.
Proof.
  assert (hits (make_mask (gray_of plate_img) plate_quad) 255 <> [])
    as Hne by (vm_compute; discriminate).
  assert (rectangular (gray_of plate_img) = true) as Hrect by reflexivity.
  assert (shape (gray_of plate_img) = shape plate_img) as Hsh
    by reflexivity.
  split; [exact Hrect|]. split; [exact Hsh|]. split; [exact Hne|].
  destruct (C10_crop_in_bounds plate_img plate_quad Hrect Hsh Hne)
    as (r1 & r2 & c1 & c2 & crop & Hc & _ & Hr & Hcol & _ & Hlen & Hrows).
  exists r1, r2, c1, c2, crop. repeat split; tauto.
Defined.
End MoreRuns.

(** * Further properties of the pipeline *)

Section OutcomeFacts.
Context `{cv2 : Cv2} `{reader : Reader}.

(** On a quadrilateral the only thing that can stop the drawing is a
    text that is not a string, and that is found out before anything is
    drawn. *)
Lemma drawn_quad (img : ColorImage) (text : PyVal) (p0 p1 p2 p3 : Point) :
  (exists s : string,
      text = VStr s /\
      drawn img text [p0; p1; p2; p3] = (Ret tt, annotated img s p0 p1 p2)) \/
  drawn img text [p0; p1; p2; p3] = (Raise Cv2Error, img).
Proof.
  destruct text as [s|q|pts]; [left; by exists s|by right|by right].
Qed.

Lemma quad_inv (p : Contour) :
  length p = 4%nat -> exists p0 p1 p2 p3 : Point, p = [p0; p1; p2; p3].
Proof.
  destruct p as [|p0 [|p1 [|p2 [|p3 [|p4 p]]]]]; try done.
  intros _. by exists p0, p1, p2, p3.
Qed.

(** Every way a run on a live buffer can end: before the OCR call with
    the heap as it was; after the OCR call with the heap as it was; or
    with both drawings made on the buffer and all three results. *)
Lemma process_image_outcome (l : loc) (w : World) (img : ColorImage) :
  heap w !! l = Some img ->
  (exists res : Res Output,
      process_image l w = (res, loaded w) /\
      ((res = Ret not_found /\ located img = None) \/
       exists e : PyExc, res = Raise e)) \/
  (exists (crop : GrayImage) (res : Res Output),
      process_image l w = (res, ocr_called (loaded w) crop) /\
      ((res = Ret not_found /\ readtext crop = []) \/
       (exists e : PyExc, res = Raise e) /\ readtext crop <> [])) \/
  (exists (p0 p1 p2 p3 : Point) (crop : GrayImage) (entry : OcrEntry)
          (rest : list OcrEntry) (s : string),
      located img = Some [p0; p1; p2; p3] /\
      crop_plate (gray_of img) (make_mask (gray_of img) [p0; p1; p2; p3])
        = Ret crop /\
      readtext crop = entry :: rest /\
      py_getitem entry (-2) = Ret (VStr s) /\
      process_image l w =
        (Ret (Some l, Some (VStr s), Some crop),
         mkWorld (<[l := annotated img s p0 p1 p2]> (heap w))
                 (trace (ocr_called (loaded w) crop)))).
Proof.
  intros Hl. rewrite (process_image_unfold l w img Hl).
  destruct (located img) as [p|] eqn:Hp.
  2:{ left. exists (Ret not_found). split; [done|]. by left. }
  destruct (quad_inv p (find_location_quad _ _ Hp)) as (p0 & p1 & p2 & p3 & ->).
  rewrite read_plate_unfold.
  destruct (crop_plate _ _) as [crop|e] eqn:Hc.
  2:{ left. exists (Raise e). split; [done|]. right. by exists e. }
  destruct (readtext crop) as [|entry rest] eqn:Hr.
  { right; left. exists crop, (Ret not_found). split; [done|]. by left. }
  destruct (py_getitem entry (-2)) as [text|e] eqn:Ht.
  2:{ right; left. exists crop, (Raise e). split; [done|]. right.
      split; [by exists e|by rewrite Hr]. }
  rewrite (annotate_drawn l text _ _ img) by done.
  destruct (drawn_quad img text p0 p1 p2 p3) as [(s & -> & ->)| ->].
  - right; right. exists p0, p1, p2, p3, crop, entry, rest, s.
    by repeat split.
  - right; left. exists crop, (Raise Cv2Error). simpl.
    rewrite insert_id by done. split; [done|]. right.
    split; [by exists Cv2Error|by rewrite Hr].
Qed.

Lemma process_image_dangling (l : loc) (w : World) :
  heap w !! l = None -> process_image l w = (Raise DanglingRef, loaded w).
Proof.
  intros Hl. unfold process_image, bind, load_reader, emit, deref; simpl.
  by rewrite Hl.
Qed.

Lemma events_loaded (w : World) :
  events_of_run w (loaded w) = [EvLoadReader].
Proof. unfold events_of_run, loaded; simpl. by rewrite drop_app_length. Qed.

Lemma events_ocr_called (w : World) (h : gmap loc ColorImage)
    (crop : GrayImage) :
  events_of_run w (mkWorld h (trace (ocr_called (loaded w) crop)))
  = [EvLoadReader; EvReadText crop].
Proof.
  unfold events_of_run, ocr_called, loaded; simpl.
  by rewrite <- app_assoc, drop_app_length.
Qed.

(** X1: the ranking is stable.  Among the contours of any one area the
    order [findContours] gave is kept, so of two equally large
    candidates the one found first is tried first. *)
Theorem X1_ranking_stable (img : ColorImage) (q : Q) :
  List.filter (fun c => Qeq_bool (contourArea c) q) (ranked img) =
  List.filter (fun c => Qeq_bool (contourArea c) q) (all_contours img).
Proof. apply sorted_desc_stable. Qed.

(** X2: a result is all or nothing.  Whatever [process_image] returns
    is either [(None, None, None)] or has all three parts: the image is
    the buffer that was passed in, the text is a string, namely the
    second-to-last field of the first OCR entry, and the crop is the
    image [readtext] was called on. *)
Theorem X2_result_all_or_nothing (l : loc) (w : World) (out : Output) :
  fst (process_image l w) = Ret out ->
  out = not_found \/
  exists (s : string) (crop : GrayImage) (entry : OcrEntry)
         (rest : list OcrEntry),
    out = (Some l, Some (VStr s), Some crop) /\
    readtext crop = entry :: rest /\
    py_getitem entry (-2) = Ret (VStr s) /\
    events_of_run w (snd (process_image l w))
      = [EvLoadReader; EvReadText crop].
Proof.
  destruct (heap w !! l) as [img|] eqn:Hl.
  2:{ by rewrite process_image_dangling. }
  destruct (process_image_outcome l w img Hl)
    as [(res & -> & [[-> _]|[e ->]])
       |[(crop & res & -> & [[-> _]|[[e ->] _]])
        |(p0 & p1 & p2 & p3 & crop & entry & rest & s & _ & _ & Hr & Ht & ->)]];
    simpl; intros [= <-]; try by left.
  right. exists s, crop, entry, rest. repeat split; try done.
  apply events_ocr_called.
Qed.

(** X3: a run that ends in an exception leaves every buffer as it was.
    The checks that can fail -- the empty mask, an OCR entry with fewer
    than two fields, a text that is not a string -- all come before the
    first drawing call. *)
Theorem X3_exception_leaves_heap (l : loc) (w : World) (e : PyExc) :
  fst (process_image l w) = Raise e ->
  heap (snd (process_image l w)) = heap w.
Proof.
  destruct (heap w !! l) as [img|] eqn:Hl.
  2:{ by rewrite process_image_dangling. }
  destruct (process_image_outcome l w img Hl)
    as [(res & -> & _)
       |[(crop & res & -> & _)
        |(p0 & p1 & p2 & p3 & crop & entry & rest & s & _ & _ & _ & _ & ->)]];
    simpl; done.
Qed.

(** X4: what a run adds to the log.  The earlier log is kept; the run
    adds the loading of the reader and then at most one call of
    [readtext] -- never a second one, never one before the reader is
    loaded. *)
Theorem X4_log_discipline (l : loc) (w : World) :
  exists evs : list Event,
    trace (snd (process_image l w)) = trace w ++ evs /\
    (evs = [EvLoadReader] \/
     exists crop : GrayImage, evs = [EvLoadReader; EvReadText crop]).
Proof.
  destruct (heap w !! l) as [img|] eqn:Hl.
  2:{ rewrite process_image_dangling by done. exists [EvLoadReader].
      split; [done|by left]. }
  destruct (process_image_outcome l w img Hl)
    as [(res & -> & _)
       |[(crop & res & -> & _)
        |(p0 & p1 & p2 & p3 & crop & entry & rest & s & _ & _ & _ & _ & ->)]].
  - exists [EvLoadReader]. split; [done|by left].
  - exists [EvLoadReader; EvReadText crop]. simpl.
    rewrite <- app_assoc. split; [done|]. right. by exists crop.
  - exists [EvLoadReader; EvReadText crop]. simpl.
    rewrite <- app_assoc. split; [done|]. right. by exists crop.
Qed.

Lemma process_image_frame (l l' : loc) (w : World) :
  l' <> l ->
  heap (snd (process_image l w)) !! l' = heap w !! l'.
Proof.
  intros Hne. destruct (heap w !! l) as [img|] eqn:Hl.
  2:{ by rewrite process_image_dangling. }
  destruct (process_image_outcome l w img Hl)
    as [(res & -> & _)
       |[(crop & res & -> & _)
        |(p0 & p1 & p2 & p3 & crop & entry & rest & s & _ & _ & _ & _ & ->)]];
    simpl; try done.
  by rewrite lookup_insert_ne.
Qed.

(** X5: no run, however it ends, writes to a buffer other than the one
    it was given. *)
Theorem X5_other_buffers_untouched (l l' : loc) (w : World) :
  l' <> l ->
  heap (snd (process_image l w)) !! l' = heap w !! l'.
Proof. apply process_image_frame. Qed.
End OutcomeFacts.

Section RetryFacts.
Context `{cv2 : Cv2} `{reader : Reader}.

Lemma events_of_run_app (w w' : World) (evs : list Event) :
  trace w' = trace w ++ evs -> events_of_run w w' = evs.
Proof. intros Ht. unfold events_of_run. by rewrite Ht, drop_app_length. Qed.

Lemma events_after_ocr (w : World) (crop : GrayImage) :
  events_of_run w (ocr_called (loaded w) crop)
  = [EvLoadReader; EvReadText crop].
Proof. apply events_of_run_app. simpl. by rewrite <- app_assoc. Qed.

(** A run depends on the world only through the content of its
    buffer. *)
Lemma process_image_ext (l : loc) (w1 w2 : World) :
  heap w1 !! l = heap w2 !! l ->
  fst (process_image l w1) = fst (process_image l w2) /\
  events_of_run w1 (snd (process_image l w1))
    = events_of_run w2 (snd (process_image l w2)).
Proof.
  intros Heq. destruct (heap w1 !! l) as [img|] eqn:H1; symmetry in Heq.
  2:{ rewrite !process_image_dangling by done.
      by rewrite !events_loaded. }
  rewrite (process_image_unfold l w1 img H1).
  rewrite (process_image_unfold l w2 img Heq).
  destruct (located img) as [p|]; [|by rewrite !events_loaded].
  rewrite !read_plate_unfold.
  destruct (crop_plate _ _) as [crop|e]; [|by rewrite !events_loaded].
  destruct (readtext crop) as [|entry rest].
  { split; [done|]. cbn [snd]. by rewrite !events_after_ocr. }
  destruct (py_getitem entry (-2)) as [text|e].
  2:{ split; [done|]. cbn [snd]. by rewrite !events_after_ocr. }
  rewrite (annotate_drawn l text p _ img) by done.
  rewrite (annotate_drawn l text p _ img) by done.
  destruct (drawn img text p) as [[[]|e] img']; cbn [fst snd];
    (split; [done|]);
    rewrite !(events_of_run_app _ _ [EvLoadReader; EvReadText crop]);
    try done; simpl; by rewrite <- app_assoc.
Qed.

Lemma not_found_heap (l : loc) (w : World) :
  fst (process_image l w) = Ret not_found ->
  heap (snd (process_image l w)) = heap w.
Proof.
  destruct (heap w !! l) as [img|] eqn:Hl.
  2:{ by rewrite process_image_dangling. }
  destruct (process_image_outcome l w img Hl)
    as [(res & -> & _)
       |[(crop & res & -> & _)
        |(p0 & p1 & p2 & p3 & crop & entry & rest & s & _ & _ & _ & _ & ->)]];
    simpl; done.
Qed.

(** X6: trying again does not help.  After a run that ended in the
    not-found result, a second run on the same buffer ends in the
    not-found result too, makes the same calls again, and the heap is
    still as it was before the first run. *)
Theorem X6_retry_after_not_found (l : loc) (w : World) :
  fst (process_image l w) = Ret not_found ->
  fst (process_image l (snd (process_image l w))) = Ret not_found /\
  heap (snd (process_image l (snd (process_image l w)))) = heap w /\
  events_of_run (snd (process_image l w))
    (snd (process_image l (snd (process_image l w))))
    = events_of_run w (snd (process_image l w)).
Proof.
  intros Hnf. pose proof (not_found_heap l w Hnf) as Hheap.
  destruct (process_image_ext l (snd (process_image l w)) w) as [Hres Hev].
  { by rewrite Hheap. }
  rewrite Hres, Hev. split; [done|]. split; [|done].
  rewrite not_found_heap; [done|]. by rewrite Hres.
Qed.
End RetryFacts.

Section MaskShape.
Context `{cv2 : Cv2}.

Lemma make_mask_row (gray : list (list Z)) (p : Contour) (r : nat)
    (row : list Z) :
  make_mask gray p !! r = Some row ->
  (r < fst (shape gray))%nat /\ length row = snd (shape gray) /\
  Forall (fun v => v = 0 \/ v = 255) row.
Proof.
  unfold make_mask, drawContours, GrayImage.
  rewrite shape_np_zeros, list_lookup_imap.
  unfold np_zeros. destruct (shape gray) as [H W]. cbn [fst snd].
  destruct (replicate H (replicate W 0) !! r) as [zs|] eqn:Hz; [|done].
  apply lookup_replicate in Hz as [-> Hr]. simpl. intros [= <-].
  split; [done|]. split; [by rewrite length_imap, length_replicate|].
  apply Forall_lookup. intros c v. rewrite list_lookup_imap.
  destruct (replicate W 0 !! c) as [z|] eqn:Hc; [|done].
  apply lookup_replicate in Hc as [-> _]. simpl. intros [= <-].
  destruct (drawContours_paints _ _ _ _ r c); [by right|by left].
Qed.

(** X7: the mask is a binary picture of the size of the grayscale
    image.  It has the grayscale image's shape, every row has the same
    length, and every pixel is 0 or 255. *)
Theorem X7_mask_binary_same_shape (gray : list (list Z)) (p : Contour) :
  shape (make_mask gray p) = shape gray /\
  rectangular (make_mask gray p) = true /\
  forall (r c : nat) (v : Z),
    px (make_mask gray p) r c = Some v ->
    (v = 0 \/ v = 255) /\
    (r < fst (shape gray))%nat /\ (c < snd (shape gray))%nat.
Proof.
  assert (shape (make_mask gray p) = shape gray) as Hshape.
  { destruct gray as [|row0 g]; [done|].
    unfold make_mask, drawContours, np_zeros, shape. simpl.
    by rewrite !length_imap, !length_replicate. }
  split; [done|]. split.
  - unfold rectangular. apply forallb_forall. intros row Hrow.
    apply list_elem_of_In, list_elem_of_lookup in Hrow as [r Hr].
    apply Nat.eqb_eq. rewrite Hshape.
    by destruct (make_mask_row gray p r row Hr) as (_ & ? & _).
  - intros r c v. unfold px.
    destruct (@lookup nat (list Z) (list (list Z)) _ r (make_mask gray p))
      as [row|] eqn:Hr; [|done].
    destruct (make_mask_row gray p r row Hr) as (Hlt & Hlen & Hbin).
    intros Hc. split; [|split; [done|]].
    + rewrite Forall_lookup in Hbin. by apply (Hbin c).
    + rewrite <- Hlen. by eapply lookup_lt_Some.
Qed.
End MaskShape.

(** X8: the cropper raises exactly when the mask has no pixel at 255,
    and then it is [ValueError]; with at least one such pixel it
    returns a crop. *)
Theorem X8_cropper_raises_iff_no_foreground (gray mask : list (list Z)) :
  (crop_plate gray mask = Raise ValueError <->
   forall r c : nat, ~ fg mask r c) /\
  ((exists crop : GrayImage, crop_plate gray mask = Ret crop) <->
   exists r c : nat, fg mask r c) /\
  forall e : PyExc, crop_plate gray mask = Raise e -> e = ValueError.
Proof.
  assert ((forall r c : nat, ~ fg mask r c) -> hits mask 255 = []) as Hnone.
  { intros Hno. destruct (hits mask 255) as [|[r c] hs] eqn:Hh; [done|].
    exfalso. apply (Hno r c). unfold fg. apply elem_of_hits.
    rewrite Hh. apply list_elem_of_here. }
  assert ((exists r c : nat, fg mask r c) ->
          exists crop, crop_plate gray mask = Ret crop) as Hsome.
  { intros (r & c & Hfg).
    destruct (crop_plate_spec gray mask) as (r1 & r2 & c1 & c2 & Hc & _).
    - intros Hnil. apply elem_of_hits in Hfg. rewrite Hnil in Hfg.
      by apply not_elem_of_nil in Hfg.
    - eauto. }
  split; [|split].
  - split.
    + intros Hraise r c Hfg.
      destruct Hsome as [crop Hcrop]; [eauto|]. congruence.
    + intros Hno. by apply crop_plate_empty, Hnone.
  - split; [|done]. intros [crop Hcrop].
    destruct (hits mask 255) as [|[r c] hs] eqn:Hh.
    + rewrite crop_plate_empty in Hcrop; done.
    + exists r, c. unfold fg. apply elem_of_hits. rewrite Hh.
      apply list_elem_of_here.
  - intros e He. destruct (hits mask 255) as [|[r c] hs] eqn:Hh.
    + rewrite crop_plate_empty in He by done. by injection He as <-.
    + destruct Hsome as [crop Hcrop]; [|congruence].
      exists r, c. unfold fg. apply elem_of_hits. rewrite Hh.
      apply list_elem_of_here.
Qed.

(** * The page *)

Section PageFacts.
Context `{cv2 : Cv2} `{reader : Reader} `{chan : Cv2Channels}.

Lemma alloc_spec (img : ColorImage) (w : World) (l : loc) (w' : World) :
  alloc img w = (l, w') ->
  heap w !! l = None /\ heap w' = <[l := img]> (heap w) /\
  trace w' = trace w.
Proof.
  unfold alloc. intros [= <- <-]. simpl. split; [|done].
  apply not_elem_of_dom, is_fresh.
Qed.

(** The two arrays of the page are new, distinct, and hold the upload
    and its BGR conversion. *)
Lemma prepare_spec (img : ColorImage) (w : World) (a b : loc) (w2 : World) :
  prepare img w = (a, b, w2) ->
  heap w !! a = None /\ heap w !! b = None /\ a <> b /\
  heap w2 = <[b := cvtColor_RGB2BGR img]> (<[a := img]> (heap w)) /\
  trace w2 = trace w.
Proof.
  unfold prepare.
  destruct (alloc img w) as [a' w1] eqn:H1.
  destruct (alloc (cvtColor_RGB2BGR img) w1) as [b' w2'] eqn:H2.
  intros [= <- <- <-].
  apply alloc_spec in H1 as (Ha & Hh1 & Ht1).
  apply alloc_spec in H2 as (Hb & Hh2 & Ht2).
  rewrite Hh1 in Hb, Hh2.
  assert (a' <> b') as Hne.
  { intros <-. by rewrite lookup_insert_eq in Hb. }
  rewrite lookup_insert_ne in Hb by done.
  repeat split; try done. congruence.
Qed.

Lemma script_world (img : ColorImage) (w : World) (a b : loc) (w2 : World) :
  prepare img w = (a, b, w2) ->
  snd (fst (script (Some img) w)) = snd (process_image b w2).
Proof.
  intros Hprep. unfold script. rewrite Hprep.
  destruct (process_image b w2) as [[out|e] w3]; [|done].
  by destruct (display w3 out).
Qed.

(** X9: what the page shows for a result.  Whenever the pipeline
    returns, the page run ends normally and shows, after the upload,
    exactly one of two things: the error message, when the returned
    text is missing or empty; or the success line with the returned
    string, the annotated buffer converted back to RGB, and the crop.
    The [None] checks the page leaves out are never needed. *)
Theorem X9_page_outcome (img : ColorImage) (w : World) (a b : loc)
    (w2 w3 : World) (out : Output) :
  prepare img w = (a, b, w2) ->
  process_image b w2 = (Ret out, w3) ->
  exists shown : list UiEvent,
    script (Some img) w
      = (Done, w3, (page_head ++ upload_shown img) ++ shown) /\
    ((truthy_opt (snd (fst out)) = false /\
      shown = [StError not_found_message]) \/
     (exists (s : string) (crop : GrayImage) (bgr : ColorImage),
         out = (Some b, Some (VStr s), Some crop) /\ s <> ""%string /\
         heap w3 !! b = Some bgr /\
         shown =
           [ StSuccess (VStr s);
             StImage (ShownColor (cvtColor_BGR2RGB bgr)) "Processed Image";
             StImage (ShownGray crop) "Cropped Plate (Sent to OCR)" ])).
Proof.
  intros Hprep Hrun.
  destruct (prepare_spec _ _ _ _ _ Hprep) as (_ & _ & _ & Hheap & _).
  assert (heap w2 !! b = Some (cvtColor_RGB2BGR img)) as Hb.
  { by rewrite Hheap, lookup_insert_eq. }
  unfold script. rewrite Hprep, Hrun.
  destruct (process_image_outcome b w2 _ Hb)
    as [(res & Hres & [[-> _]|[e ->]])
       |[(crop & res & Hres & [[-> _]|[[e ->] _]])
        |(p0 & p1 & p2 & p3 & crop & entry & rest & s & _ & _ & _ & _ & Hres)]];
    rewrite Hrun in Hres; try discriminate Hres;
    injection Hres as -> ->.
  - exists [StError not_found_message]. split; [done|by left].
  - exists [StError not_found_message]. split; [done|by left].
  - unfold display. cbn [truthy_opt py_truthy heap].
    rewrite lookup_insert_eq.
    destruct (String.eqb_spec s "") as [->|Hs]; cbn [negb].
    + exists [StError not_found_message]. split; [done|by left].
    + eexists. split; [done|]. right.
      by exists s, crop, (annotated (cvtColor_RGB2BGR img) s p0 p1 p2).
Qed.

(** X10: an empty reading is shown as a failure.  When the first OCR
    entry carries the empty string, the pipeline succeeds and draws on
    its buffer, but the page tests the text for truth and shows the
    error message: no success line, no processed image, no crop. *)
Theorem X10_blank_text_shown_as_failure (img : ColorImage) (w : World)
    (a b : loc) (w2 : World) (p0 p1 p2 p3 : Point) (crop : GrayImage)
    (box conf : PyVal) (rest : list OcrEntry) :
  prepare img w = (a, b, w2) ->
  located (cvtColor_RGB2BGR img) = Some [p0; p1; p2; p3] ->
  crop_plate (gray_of (cvtColor_RGB2BGR img))
    (make_mask (gray_of (cvtColor_RGB2BGR img)) [p0; p1; p2; p3])
    = Ret crop ->
  readtext crop = [box; VStr ""; conf] :: rest ->
  exists w3 : World,
    script (Some img) w
      = (Done, w3,
         (page_head ++ upload_shown img) ++ [StError not_found_message]) /\
    fst (process_image b w2)
      = Ret (Some b, Some (VStr ""), Some crop) /\
    heap w3 !! b = Some (annotated (cvtColor_RGB2BGR img) "" p0 p1 p2) /\
    events_of_run w w3 = [EvLoadReader; EvReadText crop].
Proof.
  intros Hprep Hp Hc Hr.
  destruct (prepare_spec _ _ _ _ _ Hprep) as (_ & _ & _ & Hheap & Htr).
  assert (heap w2 !! b = Some (cvtColor_RGB2BGR img)) as Hb.
  { by rewrite Hheap, lookup_insert_eq. }
  unfold script. rewrite Hprep.
  rewrite (process_image_unfold b w2 _ Hb), Hp, read_plate_unfold, Hc, Hr.
  change (py_getitem [box; VStr ""; conf] (-2)) with (Ret (VStr "")).
  cbv beta iota.
  rewrite (annotate_quad b "" p0 p1 p2 p3 _ (cvtColor_RGB2BGR img)) by done.
  eexists. split; [done|]. split; [done|]. split.
  - simpl. by rewrite lookup_insert_eq.
  - apply events_of_run_app. simpl. by rewrite Htr, <- app_assoc.
Qed.

(** X11: the page works on arrays of its own.  The two arrays it makes
    are new and distinct; after the run, whatever its end, every
    buffer that existed before is as it was, and the array made of the
    upload still holds the upload: only the BGR copy is ever drawn
    on. *)
Theorem X11_page_keeps_existing_buffers (img : ColorImage) (w : World)
    (a b : loc) (w2 : World) :
  prepare img w = (a, b, w2) ->
  a <> b /\ heap w !! a = None /\ heap w !! b = None /\
  heap (snd (fst (script (Some img) w))) !! a = Some img /\
  forall l : loc,
    is_Some (heap w !! l) ->
    heap (snd (fst (script (Some img) w))) !! l = heap w !! l.
Proof.
  intros Hprep.
  destruct (prepare_spec _ _ _ _ _ Hprep) as (Ha & Hb & Hne & Hheap & _).
  rewrite (script_world img w a b w2 Hprep).
  do 3 (split; [done|]). split.
  - rewrite process_image_frame by done.
    rewrite Hheap, lookup_insert_ne by done. by rewrite lookup_insert_eq.
  - intros l [x Hl].
    assert (l <> a) by congruence. assert (l <> b) by congruence.
    rewrite process_image_frame by done.
    rewrite Hheap. by rewrite !lookup_insert_ne.
Qed.
End PageFacts.

(** * Concrete runs of the further properties *)

Section ExtraRuns.
Import Demo DemoPage.
#[local] Existing Instance cv2_demo.
#[local] Existing Instance reader_demo.
#[local] Existing Instance chan_demo.

Lemma X2_result_witness :
  fst (process_image 1%positive (world_of plate_img))
    = Ret (Some 1%positive, Some (VStr "ABC123"), Some plate_crop) /\
  exists (s : string) (crop : GrayImage),
    (Some 1%positive, Some (VStr "ABC123"), Some plate_crop)
      = (Some 1%positive, Some (VStr s), Some crop) /\
    events_of_run (world_of plate_img)
      (snd (process_image 1%positive (world_of plate_img)))
      = [EvLoadReader; EvReadText crop].
Proof.
  assert (fst (process_image 1%positive (world_of plate_img))
          = Ret (Some 1%positive, Some (VStr "ABC123"), Some plate_crop))
    as Hrun by reflexivity.
  split; [exact Hrun|].
  destruct (X2_result_all_or_nothing 1%positive (world_of plate_img) _ Hrun)
    as [Hnf|(s & crop & entry & rest & Hout & _ & _ & Hev)].
  - discriminate Hnf.
  - exists s, crop. split; [exact Hout|exact Hev].
Defined.

Lemma X3_exception_witness :
  fst (@process_image cv2_nofill reader_demo 1%positive (world_of plate_img))
    = Raise ValueError /\
  heap (snd (@process_image cv2_nofill reader_demo 1%positive
               (world_of plate_img)))
    = heap (world_of plate_img).
Proof.
  assert (fst (@process_image cv2_nofill reader_demo 1%positive
                 (world_of plate_img)) = Raise ValueError)
    as Hrun by reflexivity.
  split; [exact Hrun|].
  exact (@X3_exception_leaves_heap cv2_nofill reader_demo 1%positive
           (world_of plate_img) ValueError Hrun).
Defined.

Lemma X5_other_buffers_witness :
  2%positive <> 5%positive /\
  heap (snd (process_image 5%positive busy_world)) !! 2%positive
    = Some flat_img /\
  heap (snd (process_image 5%positive busy_world)) !! 5%positive
    <> Some plate_img.
Proof.
  assert (2%positive <> 5%positive) as Hne by discriminate.
  split; [exact Hne|]. split.
  - rewrite (X5_other_buffers_untouched 5%positive 2%positive busy_world Hne).
    reflexivity.
  - intros Heq. vm_compute in Heq. discriminate Heq.
Defined.

Lemma X6_retry_witness :
  fst (process_image 1%positive (world_of dim_img)) = Ret not_found /\
  fst (process_image 1%positive
         (snd (process_image 1%positive (world_of dim_img))))
    = Ret not_found /\
  heap (snd (process_image 1%positive
               (snd (process_image 1%positive (world_of dim_img)))))
    = heap (world_of dim_img).
Proof.
  assert (fst (process_image 1%positive (world_of dim_img)) = Ret not_found)
    as Hrun by reflexivity.
  split; [exact Hrun|].
  destruct (X6_retry_after_not_found 1%positive (world_of dim_img) Hrun)
    as (Hres & Hheap & _).
  split; [exact Hres|exact Hheap].
Defined.

Lemma X9_page_witness :
  prepare plate_img busy_world = (page_a, page_b, page_world) /\
  process_image page_b page_world
    = (Ret (Some page_b, Some (VStr "ABC123"), Some plate_crop),
       snd (process_image page_b page_world)) /\
  exists shown : list UiEvent,
    script (Some plate_img) busy_world
      = (Done, snd (process_image page_b page_world),
         (page_head ++ upload_shown plate_img) ++ shown) /\
    existsb is_success shown = true /\ existsb is_error shown = false.
Proof.
  assert (prepare plate_img busy_world = (page_a, page_b, page_world))
    as Hprep by reflexivity.
  assert (process_image page_b page_world
          = (Ret (Some page_b, Some (VStr "ABC123"), Some plate_crop),
             snd (process_image page_b page_world)))
    as Hrun by reflexivity.
  split; [exact Hprep|]. split; [exact Hrun|].
  destruct (X9_page_outcome plate_img busy_world page_a page_b page_world
              _ _ Hprep Hrun)
    as (shown & Hscript & [[Hfalse _]|(s & crop & bgr & _ & _ & _ & ->)]).
  - discriminate Hfalse.
  - eexists. split; [exact Hscript|]. split; reflexivity.
Defined.

Lemma X10_blank_text_witness :
  prepare plate_img busy_world = (page_a, page_b, page_world) /\
  located (cvtColor_RGB2BGR plate_img) = Some plate_quad /\
  crop_plate (gray_of (cvtColor_RGB2BGR plate_img))
    (make_mask (gray_of (cvtColor_RGB2BGR plate_img)) plate_quad)
    = Ret plate_crop /\
  @readtext reader_blank plate_crop
    = [[VStr "box"; VStr ""; VFloat (1 # 10)]] /\
  exists w3 : World,
    @script cv2_demo reader_blank chan_demo (Some plate_img) busy_world
      = (Done, w3,
         (page_head ++ upload_shown plate_img)
           ++ [StError not_found_message]) /\
    heap w3 !! page_b
      = Some (annotated (cvtColor_RGB2BGR plate_img) "" (1, 1) (3, 1) (3, 2)).
Proof.
  assert (prepare plate_img busy_world = (page_a, page_b, page_world))
    as Hprep by reflexivity.
  assert (located (cvtColor_RGB2BGR plate_img) = Some plate_quad)
    as Hp by reflexivity.
  assert (crop_plate (gray_of (cvtColor_RGB2BGR plate_img))
            (make_mask (gray_of (cvtColor_RGB2BGR plate_img)) plate_quad)
          = Ret plate_crop) as Hc by reflexivity.
  assert (@readtext reader_blank plate_crop
          = [[VStr "box"; VStr ""; VFloat (1 # 10)]]) as Hr by reflexivity.
  do 4 (split; [assumption|]).
  destruct (@X10_blank_text_shown_as_failure cv2_demo reader_blank chan_demo
              plate_img busy_world page_a page_b page_world
              (1, 1) (3, 1) (3, 2) (1, 2) plate_crop
              (VStr "box") (VFloat (1 # 10)) [] Hprep Hp Hc Hr)
    as (w3 & Hscript & _ & Hheap & _).
  exists w3. split; [exact Hscript|exact Hheap].
Defined.

Lemma X11_page_buffers_witness :
  prepare plate_img busy_world = (page_a, page_b, page_world) /\
  page_a <> page_b /\
  heap (snd (fst (script (Some plate_img) busy_world))) !! page_a
    = Some plate_img /\
  heap (snd (fst (script (Some plate_img) busy_world))) !! 5%positive
    = Some plate_img /\
  heap (snd (fst (script (Some plate_img) busy_world))) !! 2%positive
    = Some flat_img.
Proof.
  assert (prepare plate_img busy_world = (page_a, page_b, page_world))
    as Hprep by reflexivity.
  split; [exact Hprep|].
  destruct (X11_page_keeps_existing_buffers plate_img busy_world
              page_a page_b page_world Hprep)
    as (Hne & _ & _ & Ha & Hold).
  split; [exact Hne|]. split; [exact Ha|]. split.
  - rewrite Hold; [reflexivity|]. by eexists.
  - rewrite Hold; [reflexivity|]. by eexists.
Defined.
End ExtraRuns.

(** * The unguarded extraction, and running twice *)

Section Revisited.
Context `{cv2 : Cv2} `{reader : Reader}.



(** C8 (as the code has it): what running twice gives.  Two runs on
    buffers holding the same picture are observed alike.  A second run
    on the same buffer repeats the first when the first did not end in
    success, for the buffer is then as it was.  After a success the
    buffer holds the annotated picture, and the second run is a run on
    that picture. *)
Theorem C8_running_twice (l : loc) (w : World) (img : ColorImage) :
  heap w !! l = Some img ->
  (forall (l' : loc) (w' : World),
      heap w' !! l' = Some img ->
      observe l w (process_image l w)
        = observe l' w' (process_image l' w')) /\
  ((forall (t : option PyVal) (c : option GrayImage),
       fst (process_image l w) <> Ret (Some l, t, c)) ->
   heap (snd (process_image l w)) = heap w /\
   observe l (snd (process_image l w))
     (process_image l (snd (process_image l w)))
     = observe l w (process_image l w)) /\
  (forall (p0 p1 p2 p3 : Point) (s : string) (crop : GrayImage),
      located img = Some [p0; p1; p2; p3] ->
      fst (process_image l w) = Ret (Some l, Some (VStr s), Some crop) ->
      heap (snd (process_image l w)) !! l
        = Some (annotated img s p0 p1 p2) /\
      forall (l' : loc) (w' : World),
        heap w' !! l' = Some (annotated img s p0 p1 p2) ->
        observe l (snd (process_image l w))
          (process_image l (snd (process_image l w)))
          = observe l' w' (process_image l' w')).
Proof.
  intros Hl. split; [|split].
  - intros l' w' Hl'. by apply (observe_equal_pictures l l' w w' img).
  - intros Hfail.
    assert (heap (snd (process_image l w)) = heap w) as Hheap.
    { destruct (process_image_outcome l w img Hl)
        as [(res & Hrun & _)
           |[(crop & res & Hrun & _)
            |(p0 & p1 & p2 & p3 & crop & entry & rest & s
              & _ & _ & _ & _ & Hrun)]];
        rewrite Hrun in *; try done.
      by destruct (Hfail (Some (VStr s)) (Some crop)). }
    split; [done|].
    apply (observe_equal_pictures l l _ w img); [|done].
    by rewrite Hheap.
  - intros p0 p1 p2 p3 s crop Hp Hrun.
    assert (heap (snd (process_image l w)) !! l
            = Some (annotated img s p0 p1 p2)) as Hpic.
    { destruct (process_image_outcome l w img Hl)
        as [(res & Hout & [[-> _]|[e ->]])
           |[(crop' & res & Hout & [[-> _]|[[e ->] _]])
            |(q0 & q1 & q2 & q3 & crop' & entry & rest & s'
              & Hq & _ & _ & _ & Hout)]];
        rewrite Hout in Hrun |- *; try discriminate Hrun.
      rewrite Hp in Hq. injection Hq as <- <- <- <-.
      injection Hrun as <- _. simpl. by rewrite lookup_insert_eq. }
    split; [done|]. intros l' w' Hl'.
    by apply (observe_equal_pictures l l' _ w' (annotated img s p0 p1 p2)).
Qed.
End Revisited.

Section RevisitedRuns.
Import Demo.
#[local] Existing Instance cv2_demo.
#[local] Existing Instance reader_demo.


(** C8, as worded, fails on the plate picture: the first run succeeds
    and draws on its buffer; run again on the same buffer, it cuts its
    crop out of the annotated picture and returns a different crop. *)
Lemma C8_second_run_differs :
  fst (process_image 1%positive (world_of plate_img))
    = Ret (Some 1%positive, Some (VStr "ABC123"),
           Some [[200; 200; 200]; [200; 200; 200]]) /\
  fst (process_image 1%positive
         (snd (process_image 1%positive (world_of plate_img))))
    = Ret (Some 1%positive, Some (VStr "ABC123"),
           Some [[150; 200; 200]; [200; 200; 150]]) /\
  fst (process_image 1%positive (world_of plate_img))
    <> fst (process_image 1%positive
              (snd (process_image 1%positive (world_of plate_img)))).
Proof.
  split; [reflexivity|]. split; [reflexivity|].
  intros Heq. vm_compute in Heq. discriminate Heq.
Qed.

Lemma C8_running_twice_witness :
  heap (world_of plate_img) !! 1%positive = Some plate_img /\
  located plate_img = Some [(1, 1); (3, 1); (3, 2); (1, 2)] /\
  fst (process_image 1%positive (world_of plate_img))
    = Ret (Some 1%positive, Some (VStr "ABC123"), Some plate_crop) /\
  heap (snd (process_image 1%positive (world_of plate_img))) !! 1%positive
    = Some (annotated plate_img "ABC123" (1, 1) (3, 1) (3, 2)) /\
  heap busy_world !! 5%positive = Some plate_img /\
  observe 1%positive (world_of plate_img)
    (process_image 1%positive (world_of plate_img))
  = observe 5%positive busy_world (process_image 5%positive busy_world) /\
  heap (world_of dim_img) !! 1%positive = Some dim_img /\
  observe 1%positive (snd (process_image 1%positive (world_of dim_img)))
    (process_image 1%positive
       (snd (process_image 1%positive (world_of dim_img))))
  = observe 1%positive (world_of dim_img)
      (process_image 1%positive (world_of dim_img)).
Proof.
  assert (heap (world_of plate_img) !! 1%positive = Some plate_img)
    as Hl by reflexivity.
  assert (located plate_img = Some [(1, 1); (3, 1); (3, 2); (1, 2)])
    as Hp by reflexivity.
  assert (fst (process_image 1%positive (world_of plate_img))
          = Ret (Some 1%positive, Some (VStr "ABC123"), Some plate_crop))
    as Hrun by reflexivity.
  assert (heap busy_world !! 5%positive = Some plate_img)
    as Hl5 by reflexivity.
  assert (heap (world_of dim_img) !! 1%positive = Some dim_img)
    as Hld by reflexivity.
  destruct (C8_running_twice 1%positive (world_of plate_img) plate_img Hl)
    as (Hsame & _ & Hsucc).
  destruct (Hsucc _ _ _ _ _ _ Hp Hrun) as (Hpic & _).
  pose proof (Hsame 5%positive busy_world Hl5) as Hobs.
  destruct (C8_running_twice 1%positive (world_of dim_img) dim_img Hld)
    as (_ & Hfail & _).
  assert (forall (t : option PyVal) (c : option GrayImage),
             fst (process_image 1%positive (world_of dim_img))
             <> Ret (Some 1%positive, t, c)) as Hnot.
  { intros t c Heq. vm_compute in Heq. discriminate Heq. }
  destruct (Hfail Hnot) as (_ & Hagain).
  repeat (split; [assumption|]). exact Hagain.
Defined.
End RevisitedRuns.
